(** * Air-quality cleaner and wide-table reshaper

    A shallow embedding of [pollution_data_cleaner_gui.py] and
    [format_by_location.py].  The two scripts are thin drivers over pandas
    tables; the embedding keeps their functions and names and models the
    pandas and Python primitives they call by their documented behaviour.

    Numbers are exact rationals in canonical form ([Qc]): a decimal cell is
    its exact value, so binary floating-point error and the non-finite
    floats are outside the model.  Text is a byte string; comparison of
    UTF-8 bytes agrees with Python's comparison of code points. *)

From Stdlib Require Import List String Ascii Bool Arith ZArith Lia.
From Stdlib Require Import QArith Qcanon Qround.
From Stdlib Require Import Permutation Sorted DecimalString DecimalNat.
Import ListNotations.

(* ================================================================= *)
(** * Python builtins *)

Module Py.

(** Exceptions the modelled code can raise. *)
Inductive exn : Type :=
| KeyError
| ValueError
| TypeError
| IndexError.

(** A computation that returns or raises. *)
Inductive result (A : Type) : Type :=
| Ok (a : A)
| Raise (e : exn).

Arguments Ok {A} a.
Arguments Raise {A} e.

Definition bind {A B : Type} (m : result A) (k : A -> result B) : result B :=
  match m with
  | Ok a => k a
  | Raise e => Raise e
  end.

Notation "x <- m ;; k" := (bind m (fun x => k))
  (at level 61, m at next level, right associativity).

(** ** Strings *)

Local Open Scope char_scope.

(** ASCII white space, as removed by [str.strip()]. *)
Definition is_space (c : ascii) : bool :=
  match c with
  | " " | "009" | "010" | "011" | "012" | "013" => true
  | _ => false
  end.

(** [str.lower()] on an ASCII character. *)
Definition lower_char (c : ascii) : ascii :=
  let n := nat_of_ascii c in
  if (65 <=? n)%nat && (n <=? 90)%nat then ascii_of_nat (n + 32) else c.

Local Close Scope char_scope.
Local Open Scope string_scope.

Fixpoint lower (s : string) : string :=
  match s with
  | EmptyString => EmptyString
  | String c s' => String (lower_char c) (lower s')
  end.

Fixpoint lstrip (s : string) : string :=
  match s with
  | EmptyString => EmptyString
  | String c s' => if is_space c then lstrip s' else s
  end.

Fixpoint rstrip (s : string) : string :=
  match s with
  | EmptyString => EmptyString
  | String c s' =>
      match rstrip s' with
      | EmptyString => if is_space c then EmptyString else String c EmptyString
      | t => String c t
      end
  end.

Definition strip (s : string) : string := rstrip (lstrip s).

(** [s.split(sep)] for a one-character separator: never the empty list. *)
Fixpoint split (sep : ascii) (s : string) : list string :=
  match s with
  | EmptyString => [EmptyString]
  | String c s' =>
      if Ascii.eqb c sep then EmptyString :: split sep s'
      else match split sep s' with
           | [] => [String c EmptyString]
           | w :: ws => String c w :: ws
           end
  end.

(** [sep.join(parts)]. *)
Definition join (sep : string) (parts : list string) : string :=
  String.concat sep parts.

(** [s[:n]]. *)
Definition prefix_slice (n : nat) (s : string) : string := substring 0 n s.

(** [str(n)] for a natural number. *)
Definition str_of_nat (n : nat) : string :=
  NilZero.string_of_uint (Nat.to_uint n).

Fixpoint zeros (k : nat) : string :=
  match k with
  | O => EmptyString
  | S k' => String "0"%char (zeros k')
  end.

(** The format specification [{i:04d}]: decimal digits, padded on the left
    with zeros to a width of at least four. *)
Definition format_04d (i : nat) : string :=
  let s := str_of_nat i in zeros (4 - String.length s) ++ s.

(** ** Sorting *)

Section Sorting.
Context {A : Type} (leb : A -> A -> bool).

Fixpoint insort (x : A) (l : list A) : list A :=
  match l with
  | [] => [x]
  | y :: l' => if leb x y then x :: l else y :: insort x l'
  end.

(** [sorted(l)]: a stable sort, here by insertion from the right. *)
Definition sorted (l : list A) : list A := fold_right insort [] l.

End Sorting.

(** ** Dictionaries

    A [dict] keeps its keys in insertion order; assigning to a key that is
    already there replaces the value in place. *)

Definition dict (V : Type) : Type := list (string * V).

Fixpoint dict_set {V : Type} (k : string) (v : V) (d : dict V) : dict V :=
  match d with
  | [] => [(k, v)]
  | (k', v') :: d' =>
      if String.eqb k k' then (k, v) :: d' else (k', v') :: dict_set k v d'
  end.

Fixpoint dict_get {V : Type} (d : dict V) (k : string) : option V :=
  match d with
  | [] => None
  | (k', v) :: d' => if String.eqb k k' then Some v else dict_get d' k
  end.

(** [d.get(k, default)]. *)
Definition dict_get_default {V : Type} (d : dict V) (k : string) (default : V) : V :=
  match dict_get d k with
  | Some v => v
  | None => default
  end.

(** [k in l] for a list of strings. *)
Definition mem (k : string) (l : list string) : bool :=
  existsb (String.eqb k) l.

(** ** Rounding *)

(** Round to the nearest integer, ties to the even one. *)
Definition rint (x : Q) : Z :=
  let f := Qfloor x in
  match Qcompare (x - inject_Z f) (1 # 2) with
  | Lt => f
  | Gt => (f + 1)%Z
  | Eq => if Z.even f then f else (f + 1)%Z
  end.

(** [round(x, 3)], and pandas' [.round(3)] on one number. *)
Definition round3 (x : Qc) : Qc :=
  Q2Qc (inject_Z (rint (this x * inject_Z 1000)) / inject_Z 1000).

(** ** Plain decimal literals

    [float] and [pd.to_numeric] are parameters of the functions that call
    them.  The reader below covers the literals the data files hold: an
    optional sign, digits, an optional fraction.  It is what the worked
    examples run on. *)

Definition digit_of (c : ascii) : option Z :=
  let n := nat_of_ascii c in
  if (48 <=? n)%nat && (n <=? 57)%nat then Some (Z.of_nat (n - 48)) else None.

Fixpoint digits_value (s : string) (acc : Z) : option Z :=
  match s with
  | EmptyString => Some acc
  | String c s' =>
      match digit_of c with
      | Some d => digits_value s' (10 * acc + d)%Z
      | None => None
      end
  end.

(** Digits with an optional fraction: [12], [12.5], [12.] or [.5]. *)
Definition unsigned_decimal (s : string) : option Q :=
  match split "."%char s with
  | [ip] =>
      if ip =? "" then None
      else option_map inject_Z (digits_value ip 0%Z)
  | [ip; fp] =>
      if (ip =? "") && (fp =? "") then None
      else option_map
             (fun n => inject_Z n / inject_Z (10 ^ Z.of_nat (String.length fp)))%Q
             (digits_value (ip ++ fp) 0%Z)
  | _ => None
  end.

Definition decimal_of_str (s : string) : option Qc :=
  match strip s with
  | String "-"%char body => option_map (fun q => Q2Qc (- q)) (unsigned_decimal body)
  | String "+"%char body => option_map Q2Qc (unsigned_decimal body)
  | body => option_map Q2Qc (unsigned_decimal body)
  end.

(** ** More string methods *)

(** [str.upper()] on an ASCII character. *)
Definition upper_char (c : ascii) : ascii :=
  let n := nat_of_ascii c in
  if (97 <=? n)%nat && (n <=? 122)%nat then ascii_of_nat (n - 32) else c.

Fixpoint upper (s : string) : string :=
  match s with
  | EmptyString => EmptyString
  | String c s' => String (upper_char c) (upper s')
  end.

(** [s.replace(c, "")] for a one-character [c]. *)
Fixpoint remove_char (c : ascii) (s : string) : string :=
  match s with
  | EmptyString => EmptyString
  | String c' s' =>
      if Ascii.eqb c' c then remove_char c s' else String c' (remove_char c s')
  end.

(** [needle in hay] for strings. *)
Fixpoint contains (needle hay : string) : bool :=
  if String.prefix needle hay then true
  else match hay with
       | EmptyString => false
       | String _ hay' => contains needle hay'
       end.

(** [os.path.basename(path)] for paths written with [/], as the file
    dialog returns them: what follows the last slash. *)
Definition basename (path : string) : string :=
  last (split "/"%char path) EmptyString.

End Py.

(* ================================================================= *)
(** * pandas tables *)

Module Pd.
Import Py.
Local Open Scope string_scope.

(** One cell: missing ([NaN], [None], [NaT]), a number, a calendar date
    (its proleptic ordinal) or text. *)
Inductive value : Type :=
| NA
| Num (q : Qc)
| Day (d : Z)
| Str (s : string).

Definition notna (v : value) : bool :=
  match v with
  | NA => false
  | _ => true
  end.

Definition value_eqb (a b : value) : bool :=
  match a, b with
  | NA, NA => true
  | Num p, Num q => Qeq_bool (this p) (this q)
  | Day x, Day y => Z.eqb x y
  | Str s, Str t => String.eqb s t
  | _, _ => false
  end.

(** The order used to sort group keys: numbers before dates before text,
    each kind by its own order. *)
Definition value_leb (a b : value) : bool :=
  match a, b with
  | NA, _ => true
  | _, NA => false
  | Num p, Num q => Qle_bool (this p) (this q)
  | Num _, _ => true
  | _, Num _ => false
  | Day x, Day y => Z.leb x y
  | Day _, _ => true
  | _, Day _ => false
  | Str s, Str t => String.leb s t
  end.

(** Group keys are tuples of cells. *)
Definition key : Type := list value.

Fixpoint key_eqb (k1 k2 : key) : bool :=
  match k1, k2 with
  | [], [] => true
  | a :: k1', b :: k2' => value_eqb a b && key_eqb k1' k2'
  | _, _ => false
  end.

Fixpoint key_leb (k1 k2 : key) : bool :=
  match k1, k2 with
  | [], _ => true
  | _ :: _, [] => false
  | a :: k1', b :: k2' =>
      if value_eqb a b then key_leb k1' k2' else value_leb a b
  end.

(** A table: the column labels and the rows, each row holding one cell per
    column. *)
Record DataFrame : Type := mkDataFrame {
  columns : list string;
  rows : list (list value)
}.

(** [len(df)]. *)
Definition len (df : DataFrame) : nat := List.length (rows df).

(** A table as [read_csv] builds it: distinct labels, full rows. *)
Definition well_formed (df : DataFrame) : Prop :=
  NoDup (columns df) /\
  Forall (fun r => List.length r = List.length (columns df)) (rows df).

Fixpoint index_of (c : string) (cols : list string) : option nat :=
  match cols with
  | [] => None
  | c' :: cols' =>
      if String.eqb c c' then Some O
      else option_map S (index_of c cols')
  end.

(** The cell of row [r] under label [c]. *)
Definition cell (cols : list string) (r : list value) (c : string) : value :=
  match index_of c cols with
  | Some i => nth i r NA
  | None => NA
  end.

(** [df[c]] as a list of cells. *)
Definition getitem (df : DataFrame) (c : string) : result (list value) :=
  if mem c (columns df) then Ok (map (fun r => cell (columns df) r c) (rows df))
  else Raise KeyError.

Fixpoint select_mask {A : Type} (mask : list bool) (l : list A) : list A :=
  match mask, l with
  | b :: mask', x :: l' =>
      if b then x :: select_mask mask' l' else select_mask mask' l'
  | _, _ => []
  end.

(** [df[mask]] for a boolean mask over the rows. *)
Definition mask_rows (mask : list bool) (df : DataFrame) : DataFrame :=
  mkDataFrame (columns df) (select_mask mask (rows df)).

(** [df.drop(columns=labels, errors='ignore')]. *)
Definition drop (labels : list string) (df : DataFrame) : DataFrame :=
  let keep := map (fun c => negb (mem c labels)) (columns df) in
  mkDataFrame (select_mask keep (columns df)) (map (select_mask keep) (rows df)).

Definition insert_at {A : Type} (loc : nat) (x : A) (l : list A) : list A :=
  (firstn loc l ++ x :: skipn loc l)%list.

Fixpoint zip_with {A B C : Type} (f : A -> B -> C) (l1 : list A) (l2 : list B) : list C :=
  match l1, l2 with
  | a :: l1', b :: l2' => f a b :: zip_with f l1' l2'
  | _, _ => []
  end.

(** [df.insert(loc, label, vals)]: refuses a label that is already there, a
    position past the end and a column of the wrong length. *)
Definition insert (loc : nat) (label : string) (vals : list value) (df : DataFrame)
  : result DataFrame :=
  if mem label (columns df) then Raise ValueError
  else if negb (loc <=? List.length (columns df))%nat then Raise IndexError
  else if negb (List.length vals =? len df)%nat then Raise ValueError
  else Ok (mkDataFrame (insert_at loc label (columns df))
                       (zip_with (fun v r => insert_at loc v r) vals (rows df))).

Fixpoint update_nth {A : Type} (i : nat) (f : A -> A) (l : list A) : list A :=
  match l, i with
  | [], _ => []
  | x :: l', O => f x :: l'
  | x :: l', S i' => x :: update_nth i' f l'
  end.

(** [df[c] = f(df[c])] for a cell-wise [f] and a label that is present. *)
Definition assign_map (c : string) (f : value -> value) (df : DataFrame) : DataFrame :=
  match index_of c (columns df) with
  | Some i => mkDataFrame (columns df) (map (update_nth i f) (rows df))
  | None => df
  end.

(** The same assignment seen cell by cell: [f] under the label [c], the
    cell itself elsewhere. *)
Definition on_column (c : string) (f : value -> value) (c' : string) (v : value) : value :=
  if String.eqb c' c then f v else v.

(** [df[labels]]. *)
Definition select (labels : list string) (df : DataFrame) : result DataFrame :=
  if forallb (fun c => mem c (columns df)) labels
  then Ok (mkDataFrame labels (map (fun r => map (cell (columns df) r) labels) (rows df)))
  else Raise KeyError.

(** [df.rename(columns=label_map)]. *)
Definition rename (label_map : dict string) (df : DataFrame) : DataFrame :=
  mkDataFrame (map (fun c => dict_get_default label_map c c) (columns df)) (rows df).

(** ** Numeric columns *)

Section Numeric.
(** How [pd.to_numeric] reads a text cell; [None] when it cannot. *)
Variable numeric_of_str : string -> option Qc.

(** [pd.to_numeric(., errors='coerce')] on one cell. *)
Definition to_numeric (v : value) : value :=
  match v with
  | Num q => Num q
  | Str s => match numeric_of_str s with
             | Some q => Num q
             | None => NA
             end
  | _ => NA
  end.

End Numeric.

(** A column pandas holds as floats: numbers and missing cells only. *)
Definition is_numeric (v : value) : bool :=
  match v with
  | NA | Num _ => true
  | _ => false
  end.

(** A column of text labels, possibly with holes. *)
Definition is_text (v : value) : bool :=
  match v with
  | NA | Str _ => true
  | _ => false
  end.

(** [.round(3)] on one cell of a float column. *)
Definition round_value (v : value) : value :=
  match v with
  | Num q => Num (round3 q)
  | other => other
  end.

(** [series.round(3)]: only a float column can be rounded. *)
Definition series_round3 (s : list value) : result (list value) :=
  if forallb is_numeric s then Ok (map round_value s) else Raise TypeError.

(** ** Aggregation *)

Definition nums (l : list value) : list Qc :=
  flat_map (fun v => match v with Num q => [q] | _ => [] end) l.

Definition Qc_of_nat (n : nat) : Qc := Q2Qc (inject_Z (Z.of_nat n)).

Definition total (qs : list Qc) : Qc := fold_right Qcplus (Q2Qc 0) qs.

(** The mean that skips missing cells; missing when nothing is left. *)
Definition mean (l : list value) : value :=
  match nums l with
  | [] => NA
  | qs => Num (Qcdiv (total qs) (Qc_of_nat (List.length qs)))
  end.

(** ** Grouping *)

(** The distinct elements, each at its first place. *)
Fixpoint dedup {A : Type} (eqb : A -> A -> bool) (l : list A) : list A :=
  match l with
  | [] => []
  | x :: l' => x :: filter (fun y => negb (eqb y x)) (dedup eqb l')
  end.

(** [groupby(by)] with the defaults [sort=True, dropna=True]: rows with a
    missing cell in the key are left out; the groups come in ascending key
    order and keep their rows in the order of the table. *)
Definition groupby {A : Type} (by_key : A -> key) (l : list A) : list (key * list A) :=
  let l' := filter (fun a => forallb notna (by_key a)) l in
  map (fun k => (k, filter (fun a => key_eqb (by_key a) k) l'))
      (sorted key_leb (dedup key_eqb (map by_key l'))).

(** ** Pivot *)

Definition label_of (v : value) : string :=
  match v with
  | Str s => s
  | _ => EmptyString
  end.

Fixpoint lookup_key {V : Type} (k : key) (l : list (key * V)) : option V :=
  match l with
  | [] => None
  | (k', v) :: l' => if key_eqb k k' then Some v else lookup_key k l'
  end.

(** The roles must be in the table and must not overlap, and the labels to
    spread over the columns must be text. *)
Definition pivot_ready (df : DataFrame) (index : list string) (cols values : string) : bool :=
  forallb (fun c => mem c (columns df)) (values :: cols :: index)
  && negb (mem values (cols :: index))
  && negb (mem cols index)
  && forallb (fun r => is_text (cell (columns df) r cols)) (rows df).

(** The group key of a long row: its index cells, then its [cols] cell. *)
Definition pivot_key (df : DataFrame) (index : list string) (cols : string)
           (r : list value) : key :=
  (map (cell (columns df) r) index ++ [cell (columns df) r cols])%list.

(** [groupby(index + [cols])[values].mean()]: one entry per group. *)
Definition pivot_agged (df : DataFrame) (index : list string) (cols values : string)
  : list (key * value) :=
  map (fun g => (fst g, mean (map (fun r => cell (columns df) r values) (snd g))))
      (groupby (pivot_key df index cols) (rows df)).

(** [agged.dropna(how="all")]: groups whose mean is missing are dropped. *)
Definition pivot_kept (df : DataFrame) (index : list string) (cols values : string)
  : list (key * value) :=
  filter (fun g => notna (snd g)) (pivot_agged df index cols values).

(** [unstack] of the last key level followed by [reset_index]: one row per
    index key, one column per label, both ascending, a hole where the pair
    has no entry. *)
Definition unstack (index : list string) (kept : list (key * value)) : DataFrame :=
  let idx := dedup key_eqb (map (fun g => removelast (fst g)) kept) in
  let labels :=
    sorted String.leb
      (dedup String.eqb (map (fun g => label_of (last (fst g) NA)) kept)) in
  mkDataFrame
    (index ++ labels)%list
    (map (fun k =>
            (k ++ map (fun p => match lookup_key (k ++ [Str p]) kept with
                                | Some v => v
                                | None => NA
                                end) labels)%list)
         idx).

(** [df.pivot_table(index=index, columns=cols, values=values,
    aggfunc="mean").reset_index()] with the default [dropna=True], for a
    non-empty [index]:
    - the rows are grouped by the index cells followed by the [cols] cell,
      rows with a missing key cell left out;
    - each group is reduced to the mean of its [values] cells;
    - groups whose mean is missing are dropped;
    - the [cols] level is unstacked.
    A role that is not in the table is a [KeyError]; overlapping roles and
    a [values] column that is not numeric make pandas raise as well.  Labels
    that are not text are outside the model and rejected. *)
Definition pivot_table (df : DataFrame) (index : list string) (cols values : string)
  : result DataFrame :=
  let here := cell (columns df) in
  if negb (forallb (fun c => mem c (columns df)) (values :: cols :: index))
  then Raise KeyError
  else if mem values (cols :: index) || mem cols index then Raise ValueError
  else if negb (forallb (fun r => is_numeric (here r values)) (rows df))
  then Raise TypeError
  else if negb (forallb (fun r => is_text (here r cols)) (rows df))
  then Raise TypeError
  else Ok (unstack index (pivot_kept df index cols values)).

(** [pd.concat(frames, ignore_index=True)]: the columns are the union of
    the frames' columns in order of first appearance, the rows follow frame
    by frame, a cell is missing where a frame lacks the column.  Nothing to
    concatenate is a [ValueError]. *)
Definition concat (frames : list DataFrame) : result DataFrame :=
  match frames with
  | [] => Raise ValueError
  | _ =>
      let cols := dedup String.eqb (flat_map columns frames) in
      Ok (mkDataFrame cols
            (flat_map (fun f => map (fun r => map (cell (columns f) r) cols) (rows f))
                      frames))
  end.

End Pd.

(* ================================================================= *)
(** * pollution_data_cleaner_gui.py *)

Module Cleaner.
Import Py Pd.
Local Open Scope string_scope.

Definition DROP_COLS : list string :=
  ["Pollutant Standard"; "Date Last Change"; "Event Type"; "AQI"; "CBSA"; "Datum"].

(** A filter type names one column, or for coordinates a pair of them. *)
Inductive filter_target : Type :=
| Column (c : string)
| Columns (cs : list string).

Definition FILTER_MAP : dict filter_target :=
  [("state", Column "State Name");
   ("city", Column "City Name");
   ("county", Column "County Name");
   ("site", Column "Site Num");
   ("coordinates", Columns ["Latitude"; "Longitude"])].

Definition POLLUTANT_PREFIX : dict string :=
  [("PM2.5", "PM25"); ("PM10", "PM10"); ("NO2", "NO2"); ("Unknown", "UNKNOWN")].

(** What the user is shown. *)
Inductive gui_event : Type :=
| ShowError (title message : string).

Definition NUMERIC_COLS : list string :=
  ["Arithmetic Mean"; "1st Max Value"; "1st Max Daily Value"].

Section Builtins.
(** [pd.to_numeric] on a text cell. *)
Variable numeric_of_str : string -> option Qc.
(** [float(s)]; [None] stands for its [ValueError]. *)
Variable float_of_str : string -> option Qc.
(** [series.astype(str).str.contains(keyword, case=False, na=False)]; it
    raises when the keyword is not a valid pattern. *)
Variable str_contains : string -> list value -> result (list bool).

(** The sample identifiers [f"{prefix}-{i:04d}" for i in range(1, n+1)]. *)
Definition sample_ids (prefix : string) (n : nat) : list value :=
  map (fun i => Str (prefix ++ "-" ++ format_04d i)) (seq 1 n).

(** The loop over the numeric columns: each one that is present is read as
    numbers and rounded. *)
Definition round_numeric_cols (df : DataFrame) : DataFrame :=
  fold_left
    (fun d col =>
       if mem col (columns d)
       then assign_map col (fun v => round_value (to_numeric numeric_of_str v)) d
       else d)
    NUMERIC_COLS df.


Definition clean_and_label_dataframe (df : DataFrame) (pollutant : string)
  : result DataFrame :=
  let df := drop (filter (fun c => mem c (columns df)) DROP_COLS) df in
  let prefix := dict_get_default POLLUTANT_PREFIX pollutant "UNKNOWN" in
  df <- insert 0 "Sample ID" (sample_ids prefix (len df)) df ;;
  df <- insert 1 "Pollutant Name" (repeat (Str pollutant) (len df)) df ;;
  let df := round_numeric_cols df in
  let cols :=
    "Sample ID" :: "Pollutant Name"
      :: filter (fun c => negb (mem c ["Sample ID"; "Pollutant Name"])) (columns df) in
  select cols df.

(** [lat_str, lon_str = [x.strip() for x in keyword.split(",")]] followed by
    the two calls of [float]. *)
Definition parse_coordinates (keyword : string) : result (Qc * Qc) :=
  match map strip (split ","%char keyword) with
  | [lat_str; lon_str] =>
      match float_of_str lat_str with
      | None => Raise ValueError
      | Some lat =>
          match float_of_str lon_str with
          | None => Raise ValueError
          | Some lon => Ok (lat, lon)
          end
      end
  | _ => Raise ValueError
  end.

(** [series.round(3) == x]. *)
Definition round3_equals (x : Qc) (df : DataFrame) (c : string) : result (list bool) :=
  s <- getitem df c ;;
  r <- series_round3 s ;;
  Ok (map (fun v => value_eqb v (Num x)) r).

Definition coordinates_rows (df : DataFrame) (keyword : string) : result DataFrame :=
  coords <- parse_coordinates keyword ;;
  m_lat <- round3_equals (round3 (fst coords)) df "Latitude" ;;
  m_lon <- round3_equals (round3 (snd coords)) df "Longitude" ;;
  Ok (mask_rows (zip_with andb m_lat m_lon) df).

Definition INVALID_COORDINATES : gui_event :=
  ShowError "Error" "Invalid coordinate format. Use: 39.290, -76.610".

(** [filter_data] returns a table or raises, and may have shown a dialog.
    Every exception of the coordinates branch ends in the same handler. *)
Definition filter_data (df : DataFrame) (keyword_type : option string) (keyword : string)
  : result DataFrame * list gui_event :=
  let kt := lower (strip (match keyword_type with Some s => s | None => "" end)) in
  if kt =? "coordinates" then
    match coordinates_rows df keyword with
    | Ok out => (Ok out, [])
    | Raise _ => (Ok df, [INVALID_COORDINATES])
    end
  else
    match dict_get FILTER_MAP kt with
    | Some (Column col) =>
        if mem col (columns df)
        then (s <- getitem df col ;;
              mask <- str_contains keyword s ;;
              Ok (mask_rows mask df), [])
        else (Ok df, [])
    | _ => (Ok df, [])
    end.

End Builtins.

(** ** The pollutant of a file *)

Definition pollutant_from_filename (path : string) : string :=
  let name := lower (basename path) in
  if contains "pm2.5" name || contains "pm25" name then "PM2.5"
  else if contains "pm10" name then "PM10"
  else if contains "no2" name then "NO2"
  else "Unknown".

(** [ask_pollutant_for_file] as a function of what the dialog returned:
    [None] when it was cancelled. *)
Definition ask_pollutant_for_file (answer : option string) : string :=
  match answer with
  | None => "Unknown"
  | Some p =>
      if p =? "" then "Unknown"
      else
        let p := remove_char " "%char (upper (strip p)) in
        if (p =? "PM2.5") || (p =? "PM25") then "PM2.5"
        else if p =? "PM10" then "PM10"
        else if p =? "NO2" then "NO2"
        else "Unknown"
  end.

(** The pollutant [main] settles on for a file: the one in its name, else
    the one the user is asked for. *)
Definition file_pollutant (path : string) (answer : option string) : string :=
  let pollutant := pollutant_from_filename path in
  if pollutant =? "Unknown" then ask_pollutant_for_file answer else pollutant.

(** ** The loop over the files *)

(** One selected file: its path, what [pd.read_csv] made of it and what the
    user answers if asked for the pollutant. *)
Record source : Type := mkSource {
  path : string;
  read_csv : result DataFrame;
  answer : option string
}.

Section Files.
Variable numeric_of_str : string -> option Qc.
(** [str(e)] for an exception. *)
Variable str_of_exn : exn -> string.

Definition clean_file (f : source) : result DataFrame :=
  df <- read_csv f ;;
  clean_and_label_dataframe numeric_of_str df (file_pollutant (path f) (answer f)).

Definition READ_ERROR (f : source) (e : exn) : gui_event :=
  ShowError "Error Reading File"
            ("Failed to read " ++ path f ++ "." ++ String "010"%char "Error: "
             ++ str_of_exn e).

(** The body of [for f in files]: the cleaned frames, and a dialog for
    every file that failed. *)
Fixpoint clean_files (files : list source) : list DataFrame * list gui_event :=
  match files with
  | [] => ([], [])
  | f :: rest =>
      let (frames, shown) := clean_files rest in
      match clean_file f with
      | Ok cleaned => (cleaned :: frames, shown)
      | Raise e => (frames, READ_ERROR f e :: shown)
      end
  end.

(** [pd.concat(frames, ignore_index=True) if combine else frames[0]]. *)
Definition final_df (combine : bool) (frames : list DataFrame) : result DataFrame :=
  if combine then concat frames
  else match frames with
       | first :: _ => Ok first
       | [] => Raise IndexError
       end.

End Files.

(** ** The name of the exported file *)

(** [export_cleaned] up to the write: the file name, or the exception of
    the look-up of the column or of [p.replace] on a cell that is no text. *)
Inductive export_outcome : Type :=
| Written (filename : string)
| ExportKeyError
| ExportAttributeError.

(** [p.replace(".", "").replace(" ", "")]. *)
Definition name_token (p : string) : string :=
  remove_char " "%char (remove_char "."%char p).

Definition is_str (v : value) : bool :=
  match v with
  | Str _ => true
  | _ => false
  end.

Definition export_cleaned (df : DataFrame) (frequency : string) : export_outcome :=
  if negb (mem "Pollutant Name" (columns df)) then ExportKeyError
  else
    let pollutants :=
      dedup value_eqb
        (filter notna (map (fun r => cell (columns df) r "Pollutant Name") (rows df))) in
    if negb (forallb is_str pollutants) then ExportAttributeError
    else
      let pollutants_str :=
        match pollutants with
        | [] => "Unknown"
        | _ => join "_" (map (fun p => name_token (label_of p)) pollutants)
        end in
      Written (lower frequency ++ "_" ++ pollutants_str ++ "_cleaned.csv").

End Cleaner.

(* ================================================================= *)
(** * format_by_location.py *)

Module Reshaper.
Import Py Pd.
Local Open Scope string_scope.

(** [coalesce_cols(df, candidates, default=None)]. *)
Fixpoint coalesce_cols (df : DataFrame) (candidates : list string) : option string :=
  match candidates with
  | [] => None
  | c :: rest => if mem c (columns df) then Some c else coalesce_cols df rest
  end.

Definition abc : list string := ["A"; "B"; "C"; "D"; "E"; "F"; "G"; "H"].

(** The entry of pollutant [p] under letter [a], for a pair [(a, p)]. *)
Definition lettered (ap : string * string) : string * string :=
  (snd ap, "Pollutant " ++ fst ap ++ " (" ++ snd ap ++ ")").

(** The body of the loop [for i, p in enumerate(...)], from position [i] on. *)
Fixpoint label_loop (use_abc : bool) (i : nat) (ps : list string) (labels : dict string)
  : result (dict string) :=
  match ps with
  | [] => Ok labels
  | p :: ps' =>
      if use_abc then
        match nth_error abc i with
        | Some letter =>
            label_loop use_abc (S i) ps'
              (dict_set p ("Pollutant " ++ letter ++ " (" ++ p ++ ")") labels)
        | None => Raise IndexError
        end
      else label_loop use_abc (S i) ps' (dict_set p p labels)
  end.

Definition make_pollutant_labels (unique_pollutants : list string) (use_abc : bool)
  : result (dict string) :=
  label_loop use_abc 0 (sorted String.leb unique_pollutants) [].

(** The columns [main] has settled on. *)
Record Roles : Type := mkRoles {
  state_c : option string;
  county_c : option string;
  city_c : option string;
  site_num : option string;
  lat_col : option string;
  lon_col : option string;
  date_col : string;
  value_col : string
}.

(** The automatic part of the column detection. *)
Definition detect_roles (df : DataFrame) (date_col value_col : string) : Roles :=
  mkRoles (coalesce_cols df ["State Name"; "State"])
          (coalesce_cols df ["County Name"; "County"])
          (coalesce_cols df ["City Name"; "City"])
          (coalesce_cols df ["Site Num"; "Site Number"])
          (coalesce_cols df ["Latitude"; "Site Latitude"; "Lat"])
          (coalesce_cols df ["Longitude"; "Site Longitude"; "Lon"; "Long"])
          date_col value_col.

(** [[c for c in cs if c]]: [None] and the empty string are left out. *)
Definition truthy (cs : list (option string)) : list string :=
  flat_map (fun c => match c with
                     | Some s => if s =? "" then [] else [s]
                     | None => []
                     end) cs.

Definition group_cols (ro : Roles) : list string :=
  truthy [state_c ro; county_c ro; city_c ro; site_num ro; lat_col ro; lon_col ro].

Definition index_cols (ro : Roles) : list string :=
  truthy [state_c ro; county_c ro; city_c ro; site_num ro; lat_col ro; lon_col ro;
          Some (date_col ro)].

Definition POLLUTANT_NAME : string := "Pollutant Name".

Section Builtins.
(** [pd.to_numeric] on a text cell. *)
Variable numeric_of_str : string -> option Qc.
(** [pd.to_datetime(., errors="coerce").dt.date] on one cell: the ordinal of
    the calendar date, [None] when there is none. *)
Variable date_of_value : value -> option Z.
(** [str(k)] for a cell. *)
Variable str_of_value : value -> string.

Definition to_date (v : value) : value :=
  match date_of_value v with
  | Some d => Day d
  | None => NA
  end.

(** The table as it enters the pivot: dates normalised, values read as
    numbers and rounded to three decimals. *)
Definition prepare (df : DataFrame) (ro : Roles) : DataFrame :=
  let df := assign_map (date_col ro) to_date df in
  assign_map (value_col ro) (fun v => round_value (to_numeric numeric_of_str v)) df.

(** The wide table: index = location and date, one column per pollutant,
    the mean where a day and site repeat. *)
Definition make_wide (df : DataFrame) (ro : Roles) : result DataFrame :=
  pivot_table (prepare df ro) (index_cols ro) POLLUTANT_NAME (value_col ro).

(** What [make_wide] asks of its input: a date column with a name, the
    roles in the table and apart from each other, text pollutant names. *)
Definition ready (df : DataFrame) (ro : Roles) : bool :=
  negb (date_col ro =? "")
  && pivot_ready df (index_cols ro) POLLUTANT_NAME (value_col ro).







(** Labelling of the pollutant columns and the final column order. *)
Definition label_and_order (wide : DataFrame) (ro : Roles) (use_abc : bool)
  : result DataFrame :=
  let pollutants := filter (fun c => negb (mem c (index_cols ro))) (columns wide) in
  label_map <- make_pollutant_labels pollutants use_abc ;;
  let wide := rename label_map wide in
  let pollutant_cols := map (fun p => dict_get_default label_map p p) pollutants in
  let front := date_col ro :: pollutant_cols in
  let remaining := filter (fun c => negb (mem c front)) (columns wide) in
  let ordered_cols := (filter (fun c => mem c (columns wide)) front ++ remaining)%list in
  select ordered_cols wide.

(** The name of the sheet of one location. *)
Definition sheet_name (keys : key) : string :=
  let name_parts := map str_of_value (filter notna keys) in
  let name :=
    match name_parts with
    | [] => "Sheet1"
    | _ => prefix_slice 31 (join "-" name_parts)
    end in
  if name =? "" then "Sheet1" else name.

(** The sheets of the workbook, in the order they are written: the whole
    table when no location column is known, else one sub-table per
    location, as [wide.groupby(group_cols)] yields them. *)
Definition partitions (wide : DataFrame) (ro : Roles) : result (list (string * DataFrame)) :=
  match group_cols ro with
  | [] => Ok [("All", wide)]
  | gc =>
      if forallb (fun c => mem c (columns wide)) gc then
        Ok (map (fun g => (sheet_name (fst g), mkDataFrame (columns wide) (snd g)))
                (groupby (fun r => map (cell (columns wide) r) gc) (rows wide)))
      else Raise KeyError
  end.







End Builtins.

End Reshaper.

(* ================================================================= *)
(** * Worked inputs

    Instances of the parameters and the tables of the scenarios. *)

Module Examples.
Import Py Pd.
Local Open Scope string_scope.

(** A decimal cell. *)
Definition dec (n : Z) (d : positive) : value := Num (Q2Qc (Qmake n d)).







(** [str] on text cells, the only kind the example keys hold. *)
Definition str_of_text (v : value) : string :=
  match v with
  | Str s => s
  | _ => "nan"
  end.

(** A matcher for the text filters; the coordinate filter never calls it. *)
Definition contains_exact (keyword : string) (s : list value) : result (list bool) :=
  Ok (map (fun v => value_eqb v (Str keyword)) s).


(** A table with coordinates and one without. *)
Definition sites : DataFrame :=
  mkDataFrame
    ["City Name"; "Latitude"; "Longitude"]
    [[Str "Baltimore"; dec 392901 10000; dec (-766104) 10000];
     [Str "Philadelphia"; dec 40 1; dec (-75) 1]].

Definition no_coordinates : DataFrame :=
  mkDataFrame
    ["City Name"; "Arithmetic Mean"]
    [[Str "Baltimore"; dec 98 10];
     [Str "Philadelphia"; dec 7 1]].

(** The duplicate-aggregation scenario: one site and day measured twice. *)
Definition duplicates : DataFrame :=
  mkDataFrame
    ["State Name"; "City Name"; "Date"; "Pollutant Name"; "Arithmetic Mean"]
    [[Str "Maryland"; Str "Baltimore"; Str "2025-01-10"; Str "PM2.5"; dec 10 1];
     [Str "Maryland"; Str "Baltimore"; Str "2025-01-10"; Str "PM2.5"; dec 12 1];
     [Str "Maryland"; Str "Baltimore"; Str "2025-01-10"; Str "NO2"; dec 152 10]].


(** A wide table over two locations. *)
Definition wide_two : DataFrame :=
  mkDataFrame
    ["Date"; "Pollutant A (NO2)"; "State Name"; "City Name"]
    [[Day 739261; dec 152 10; Str "Maryland"; Str "Baltimore"];
     [Day 739261; dec 7 1; Str "Iowa"; Str "Ames"];
     [Day 739262; dec 9 1; Str "Maryland"; Str "Baltimore"]].

(** The roles [main] settles on for these tables. *)
Definition duplicates_roles : Reshaper.Roles :=
  Reshaper.detect_roles duplicates "Date" "Arithmetic Mean".


Definition wide_two_roles : Reshaper.Roles :=
  Reshaper.detect_roles wide_two "Date" "Arithmetic Mean".


End Examples.

(* ================================================================= *)
(** * Rounding *)

Local Open Scope nat_scope.

Section RoundingFacts.
Import Py.
Local Open Scope Q_scope.

Lemma rint_comp (x y : Q) : x == y -> rint x = rint y.
Proof.
  intros E. unfold rint.
  rewrite (Qfloor_comp _ _ E).
  assert (C : Qcompare (x - inject_Z (Qfloor y)) (1 # 2)
              = Qcompare (y - inject_Z (Qfloor y)) (1 # 2)).
  { apply Qcompare_comp; [rewrite E|]; reflexivity. }
  rewrite C. reflexivity.
Qed.

Lemma rint_inject_Z (n : Z) : rint (inject_Z n) = n.
Proof.
  unfold rint. rewrite Qfloor_Z.
  assert (C : Qcompare (inject_Z n - inject_Z n) (1 # 2) = Lt).
  { apply Qlt_alt.
    assert (Z0 : inject_Z n - inject_Z n == 0) by ring.
    rewrite Z0. reflexivity. }
  rewrite C. reflexivity.
Qed.

Lemma round3_grid (x : Qc) :
  this (round3 x) * inject_Z 1000 == inject_Z (rint (this x * inject_Z 1000)).
Proof.
  unfold round3, Q2Qc. cbn [this].
  rewrite (Qmult_comp _ _ (Qred_correct _) _ _ (Qeq_refl _)). field.
Qed.

End RoundingFacts.


(* ================================================================= *)
(** * Lists, keys and groups *)

Section ListFacts.
Import Py Pd.

Lemma mem_In (c : string) (l : list string) : mem c l = true <-> In c l.
Proof.
  unfold mem. rewrite existsb_exists. split.
  - intros (x & Hx & E). apply String.eqb_eq in E. now subst.
  - intros H. exists c. split; [exact H | apply String.eqb_refl].
Qed.

Lemma mem_false (c : string) (l : list string) : mem c l = false <-> ~ In c l.
Proof.
  rewrite <- mem_In. destruct (mem c l); split; intros; congruence.
Qed.

Lemma value_eqb_eq (a b : value) : value_eqb a b = true <-> a = b.
Proof.
  destruct a as [| p | x | s], b as [| q | y | t]; simpl;
    try (split; [discriminate | discriminate]); try tauto.
  - rewrite Qeq_bool_iff. split.
    + intros E. f_equal. now apply Qc_is_canon.
    + intros E. injection E as ->. reflexivity.
  - rewrite Z.eqb_eq. split; congruence.
  - rewrite String.eqb_eq. split; congruence.
Qed.

Lemma key_eqb_eq (k1 k2 : key) : key_eqb k1 k2 = true <-> k1 = k2.
Proof.
  revert k2. induction k1 as [| a k1 IH]; intros [| b k2]; simpl;
    try (split; [discriminate | discriminate]); try tauto.
  rewrite andb_true_iff, value_eqb_eq, IH. split.
  - intros [-> ->]. reflexivity.
  - intros E. injection E as -> ->. split; reflexivity.
Qed.

Lemma key_eqb_refl (k : key) : key_eqb k k = true.
Proof. now apply key_eqb_eq. Qed.

Lemma key_eqb_neq (k1 k2 : key) : key_eqb k1 k2 = false <-> k1 <> k2.
Proof.
  rewrite <- key_eqb_eq. destruct (key_eqb k1 k2); split; intros; congruence.
Qed.

(** ** [dedup] *)

Section Dedup.
Context {A : Type} (eqb : A -> A -> bool).
Hypothesis eqb_eq : forall x y, eqb x y = true <-> x = y.

Lemma dedup_In (x : A) (l : list A) : In x (dedup eqb l) <-> In x l.
Proof.
  induction l as [| y l IH]; simpl; [tauto|].
  rewrite filter_In, IH, negb_true_iff. split.
  - intros [E | [H _]]; auto.
  - intros [E | H]; auto.
    destruct (eqb x y) eqn:Exy.
    + left. symmetry. now apply eqb_eq.
    + right. split; [exact H | reflexivity].
Qed.

Lemma dedup_NoDup (l : list A) : NoDup (dedup eqb l).
Proof.
  induction l as [| y l IH]; simpl; constructor.
  - rewrite filter_In, negb_true_iff. intros [_ E].
    assert (T : eqb y y = true) by now apply eqb_eq.
    congruence.
  - now apply NoDup_filter.
Qed.

End Dedup.

(** ** [sorted] *)

Section Sorted.
Context {A : Type} (leb : A -> A -> bool).

Lemma insort_perm (x : A) (l : list A) : Permutation (insort leb x l) (x :: l).
Proof.
  induction l as [| y l IH]; simpl; [reflexivity|].
  destruct (leb x y); [reflexivity|].
  rewrite IH. apply perm_swap.
Qed.

Lemma sorted_perm (l : list A) : Permutation (sorted leb l) l.
Proof.
  induction l as [| x l IH]; simpl; [reflexivity|].
  rewrite insort_perm. now constructor.
Qed.

Lemma sorted_In (x : A) (l : list A) : In x (sorted leb l) <-> In x l.
Proof.
  split; apply Permutation_in; [| symmetry]; apply sorted_perm.
Qed.

Lemma sorted_NoDup (l : list A) : NoDup l -> NoDup (sorted leb l).
Proof.
  apply Permutation_NoDup. symmetry. apply sorted_perm.
Qed.

Lemma sorted_length (l : list A) : List.length (sorted leb l) = List.length l.
Proof. apply Permutation_length, sorted_perm. Qed.

Hypothesis leb_total : forall x y, leb x y = true \/ leb y x = true.
Hypothesis leb_trans : forall x y z, leb x y = true -> leb y z = true -> leb x z = true.
Hypothesis leb_antisym : forall x y, leb x y = true -> leb y x = true -> x = y.

Let le (x y : A) : Prop := leb x y = true.

Lemma insort_sorted (x : A) (l : list A) :
  StronglySorted le l -> StronglySorted le (insort leb x l).
Proof.
  induction 1 as [| y l S IH F]; simpl.
  - repeat constructor.
  - destruct (leb x y) eqn:E.
    + constructor; [now constructor|].
      constructor; [exact E|].
      eapply Forall_impl; [| exact F]. intros z Hz. now apply leb_trans with y.
    + constructor; [exact IH|].
      eapply Permutation_Forall.
      * symmetry. apply insort_perm.
      * constructor; [| exact F].
        destruct (leb_total x y) as [C | C]; [congruence | exact C].
Qed.

Lemma sorted_sorted (l : list A) : StronglySorted le (sorted leb l).
Proof.
  induction l as [| x l IH]; simpl; [constructor|].
  now apply insort_sorted.
Qed.

Lemma sorted_unique (l1 l2 : list A) :
  StronglySorted le l1 -> StronglySorted le l2 -> Permutation l1 l2 -> l1 = l2.
Proof.
  intros S1. revert l2. induction S1 as [| x l1 S1 IH F1]; intros l2 S2 P.
  - apply Permutation_nil in P. now subst.
  - destruct S2 as [| y l2 S2 F2].
    + symmetry in P. apply Permutation_nil in P. discriminate.
    + assert (E : x = y).
      { assert (Hx : In x (y :: l2)) by (eapply Permutation_in; [exact P | now left]).
        assert (Hy : In y (x :: l1))
          by (eapply Permutation_in; [symmetry; exact P | now left]).
        destruct Hx as [Hx | Hx]; [now subst|].
        destruct Hy as [Hy | Hy]; [now subst|].
        rewrite Forall_forall in F1, F2.
        apply leb_antisym; [now apply F1 | now apply F2]. }
      subst y. f_equal. apply IH; [exact S2|].
      now apply Permutation_cons_inv with x.
Qed.

Lemma sorted_of_perm (l1 l2 : list A) :
  Permutation l1 l2 -> sorted leb l1 = sorted leb l2.
Proof.
  intros P. apply sorted_unique; try apply sorted_sorted.
  rewrite !sorted_perm. exact P.
Qed.

End Sorted.

End ListFacts.

(* ================================================================= *)
(** * The labeler *)

Section LabelFacts.
Import Py Pd Reshaper.
Local Open Scope string_scope.

Lemma string_leb_trans (s1 s2 s3 : string) :
  String.leb s1 s2 = true -> String.leb s2 s3 = true -> String.leb s1 s3 = true.
Proof.
  unfold String.leb. revert s2 s3.
  induction s1 as [| a s1 IH]; intros [| b s2] [| c s3]; simpl; try congruence.
  unfold Ascii.compare.
  destruct (N.compare_spec (N_of_ascii a) (N_of_ascii b)) as [E1 | L1 | G1];
    try congruence;
    destruct (N.compare_spec (N_of_ascii b) (N_of_ascii c)) as [E2 | L2 | G2];
    try congruence.
  - rewrite E1, E2, N.compare_refl. apply IH.
  - intros _ _. rewrite E1. now rewrite (proj2 (N.compare_lt_iff _ _) L2).
  - intros _ _. rewrite <- E2. now rewrite (proj2 (N.compare_lt_iff _ _) L1).
  - intros _ _.
    now rewrite (proj2 (N.compare_lt_iff _ _) (N.lt_trans _ _ _ L1 L2)).
Qed.

Lemma sorted_names_of_perm (l1 l2 : list string) :
  Permutation l1 l2 -> sorted String.leb l1 = sorted String.leb l2.
Proof.
  apply sorted_of_perm.
  - apply String.leb_total.
  - apply string_leb_trans.
  - apply String.leb_antisym.
Qed.

Lemma dict_get_set {V : Type} (d : dict V) (k k' : string) (v : V) :
  dict_get (dict_set k v d) k' = if String.eqb k' k then Some v else dict_get d k'.
Proof.
  induction d as [| [k0 v0] d IH]; simpl.
  - reflexivity.
  - destruct (String.eqb k k0) eqn:E; simpl.
    + apply String.eqb_eq in E. subst k0.
      destruct (String.eqb k' k); reflexivity.
    + rewrite IH. destruct (String.eqb k' k0) eqn:E0; [| reflexivity].
      apply String.eqb_eq in E0. subst k0.
      rewrite String.eqb_sym, E. reflexivity.
Qed.

Lemma dict_set_fresh {V : Type} (d : dict V) (k : string) (v : V) :
  dict_get d k = None -> dict_set k v d = (d ++ [(k, v)])%list.
Proof.
  induction d as [| [k0 v0] d IH]; simpl; [reflexivity|].
  destruct (String.eqb k k0); [discriminate|].
  intros H. now rewrite IH.
Qed.

Lemma skipn_nth_error {A : Type} (l : list A) (i : nat) (x : A) :
  nth_error l i = Some x -> skipn i l = x :: skipn (S i) l.
Proof.
  revert i. induction l as [| y l IH]; intros [| i]; simpl; try discriminate.
  - now intros [= ->].
  - intros H. now rewrite (IH _ H).
Qed.

Lemma label_loop_lettered (ps : list string) :
  forall (i : nat) (labels : dict string),
    NoDup ps ->
    (forall p, In p ps -> dict_get labels p = None) ->
    i + List.length ps <= 8 ->
    label_loop true i ps labels
    = Ok (labels ++ map Reshaper.lettered (combine (skipn i abc) ps))%list.
Proof.
  induction ps as [| p ps IH]; intros i labels ND Fresh Len.
  - simpl. rewrite combine_nil, app_nil_r. reflexivity.
  - simpl in Len. cbn [label_loop].
    destruct (nth_error abc i) as [letter |] eqn:E.
    2:{ apply nth_error_None in E. simpl in E. lia. }
    rewrite (skipn_nth_error _ _ _ E). cbn [combine map].
    inversion ND as [| ? ? Hp ND']; subst.
    rewrite dict_set_fresh by (apply Fresh; now left).
    rewrite IH; [| exact ND' | | lia].
    + rewrite <- app_assoc. reflexivity.
    + intros q Hq.
      assert (N : q <> p) by (intros ->; contradiction).
      clear - N Fresh Hq.
      assert (F : dict_get labels q = None) by (apply Fresh; now right).
      revert F. generalize labels. intros d.
      induction d as [| [k0 v0] d IHd]; simpl.
      * intros _. apply String.eqb_neq in N. now rewrite N.
      * destruct (String.eqb q k0); [discriminate | exact IHd].
Qed.



End LabelFacts.

(** C5.  The Sequential labeler sorts the names in ascending order and
    letters them in that order, so two enumerations of the same names get
    the same label mapping; for up to eight distinct names the mapping is
    the sorted names paired with the letters A, B, ...; NO2 and PM2.5
    become Pollutant A (NO2) and Pollutant B (PM2.5). *)
Theorem sequential_labels_deterministic :
  (forall l1 l2 : list string,
      Permutation l1 l2 ->
      Reshaper.make_pollutant_labels l1 true = Reshaper.make_pollutant_labels l2 true) /\
  (forall l : list string,
      NoDup l -> List.length l <= 8 ->
      StronglySorted (fun a b => String.leb a b = true) (Py.sorted String.leb l) /\
      Permutation (Py.sorted String.leb l) l /\
      Reshaper.make_pollutant_labels l true
      = Py.Ok (map Reshaper.lettered (combine Reshaper.abc (Py.sorted String.leb l)))) /\
  Reshaper.make_pollutant_labels ["PM2.5"; "NO2"]%string true
  = Py.Ok [("NO2", "Pollutant A (NO2)"); ("PM2.5", "Pollutant B (PM2.5)")]%string.
Proof.
  split; [| split].
  - intros l1 l2 P. unfold Reshaper.make_pollutant_labels.
    now rewrite (sorted_names_of_perm l1 l2 P).
  - intros l ND Len. split; [| split].
    + apply sorted_sorted.
      * apply String.leb_total.
      * apply string_leb_trans.
    + apply sorted_perm.
    + unfold Reshaper.make_pollutant_labels.
      rewrite label_loop_lettered.
      * reflexivity.
      * now apply sorted_NoDup.
      * reflexivity.
      * rewrite sorted_length. simpl. lia.
  - reflexivity.
Qed.

Lemma sequential_labels_deterministic_witness :
  Reshaper.make_pollutant_labels ["PM2.5"; "NO2"; "PM10"]%string true
  = Reshaper.make_pollutant_labels ["PM10"; "PM2.5"; "NO2"]%string true.
Proof.
  apply (proj1 sequential_labels_deterministic).
  apply Permutation_sym, (Permutation_cons_app ["PM2.5"; "NO2"]%string []%list).
  apply Permutation_refl.
Defined.



(* ================================================================= *)
(** * The coordinate filter *)

Section FilterFacts.
Import Py Pd Cleaner.
Local Open Scope string_scope.

Variable float_of_str : string -> option Qc.
Variable str_contains : string -> list value -> result (list bool).

(** Whatever the coordinates branch raises, the handler answers with the
    dialog and the table it was given. *)
Lemma filter_data_handler (df : DataFrame) (kt kw : string) (e : exn) :
  lower (strip kt) = "coordinates" ->
  coordinates_rows float_of_str df kw = Raise e ->
  filter_data float_of_str str_contains df (Some kt) kw
  = (Ok df, [INVALID_COORDINATES]).
Proof.
  intros K R. unfold filter_data. rewrite K. simpl. now rewrite R.
Qed.

Lemma getitem_missing (df : DataFrame) (c : string) :
  ~ In c (columns df) -> getitem df c = Raise KeyError.
Proof.
  intros H. unfold getitem. apply mem_false in H. now rewrite H.
Qed.

Lemma round3_equals_missing (x : Qc) (df : DataFrame) (c : string) :
  ~ In c (columns df) -> round3_equals x df c = Raise KeyError.
Proof.
  intros H. unfold round3_equals. now rewrite getitem_missing.
Qed.

Lemma coordinates_rows_missing (df : DataFrame) (kw : string) :
  ~ In "Latitude" (columns df) \/ ~ In "Longitude" (columns df) ->
  exists e, coordinates_rows float_of_str df kw = Raise e.
Proof.
  intros H. unfold coordinates_rows.
  destruct (parse_coordinates float_of_str kw) as [[lat lon] | e]; simpl;
    [| now exists e].
  destruct H as [H | H].
  - rewrite (round3_equals_missing _ _ _ H). simpl. now exists KeyError.
  - destruct (round3_equals (round3 lat) df "Latitude") as [m | e]; simpl;
      [| now exists e].
    rewrite (round3_equals_missing _ _ _ H). simpl. now exists KeyError.
Qed.

End FilterFacts.

(** C1, as the code has it.  A coordinate keyword that does not read as
    two floats separated by one comma is not reported to the caller: the
    filter shows the dialog "Invalid coordinate format" and returns the
    table it was given. *)
Theorem malformed_coordinates_pass_through
  (float_of_str : string -> option Qc)
  (str_contains : string -> list Pd.value -> Py.result (list bool))
  (df : Pd.DataFrame) (kt kw : string) (e : Py.exn) :
  Py.lower (Py.strip kt) = "coordinates"%string ->
  Cleaner.parse_coordinates float_of_str kw = Py.Raise e ->
  Cleaner.filter_data float_of_str str_contains df (Some kt) kw
  = (Py.Ok df, [Cleaner.INVALID_COORDINATES]).
Proof.
  intros K P. apply filter_data_handler with e; [exact K|].
  unfold Cleaner.coordinates_rows. now rewrite P.
Qed.

Lemma malformed_coordinates_pass_through_witness :
  Cleaner.filter_data Py.decimal_of_str Examples.contains_exact Examples.sites
    (Some " Coordinates "%string) "39.290; -76.610"%string
  = (Py.Ok Examples.sites, [Cleaner.INVALID_COORDINATES]).
Proof.
  apply (malformed_coordinates_pass_through _ _ _ _ _ Py.ValueError);
    reflexivity.
Defined.

(** C1, as stated, fails: on the keyword [abc] the filter raises nothing
    and hands back the whole table. *)
Lemma malformed_coordinates_not_reported :
  Cleaner.parse_coordinates Py.decimal_of_str "abc"%string = Py.Raise Py.ValueError /\
  fst (Cleaner.filter_data Py.decimal_of_str Examples.contains_exact Examples.sites
         (Some "coordinates"%string) "abc"%string)
  = Py.Ok Examples.sites.
Proof. split; reflexivity. Qed.

(** C10.  On a table without a Latitude or a Longitude column the
    coordinates filter returns the table unchanged for every keyword, well
    formed or not: the failed column lookup ends in the handler of the
    malformed keyword. *)
Theorem coordinates_without_columns
  (float_of_str : string -> option Qc)
  (str_contains : string -> list Pd.value -> Py.result (list bool))
  (df : Pd.DataFrame) (kt kw : string) :
  Py.lower (Py.strip kt) = "coordinates"%string ->
  ~ In "Latitude"%string (Pd.columns df) \/ ~ In "Longitude"%string (Pd.columns df) ->
  Cleaner.filter_data float_of_str str_contains df (Some kt) kw
  = (Py.Ok df, [Cleaner.INVALID_COORDINATES]).
Proof.
  intros K H.
  destruct (coordinates_rows_missing float_of_str df kw H) as (e & R).
  now apply filter_data_handler with e.
Qed.

Lemma coordinates_without_columns_witness :
  Cleaner.filter_data Py.decimal_of_str Examples.contains_exact Examples.no_coordinates
    (Some "coordinates"%string) "39.290, -76.610"%string
  = (Py.Ok Examples.no_coordinates, [Cleaner.INVALID_COORDINATES]).
Proof.
  apply coordinates_without_columns.
  - reflexivity.
  - left. simpl. intros [H | [H | H]]; [discriminate | discriminate | exact H].
Defined.

(* ================================================================= *)
(** * Table operations *)

Section TableFacts.
Import Py Pd.
Local Open Scope string_scope.

Lemma select_mask_map {A : Type} (f : A -> bool) (l : list A) :
  select_mask (map f l) l = filter f l.
Proof.
  induction l as [| x l IH]; simpl; [reflexivity|].
  destruct (f x); now rewrite IH.
Qed.






Lemma index_of_In (c : string) (cols : list string) :
  In c cols -> exists i, index_of c cols = Some i.
Proof.
  induction cols as [| c0 cols IH]; simpl; [tauto|].
  intros H. destruct (String.eqb c c0) eqn:E; [now exists 0|].
  apply String.eqb_neq in E.
  destruct H as [H | H]; [congruence|].
  destruct (IH H) as (i & ->). now exists (S i).
Qed.






Lemma on_column_absent (c : string) (f : value -> value) (cols : list string) :
  ~ In c cols -> forall r, List.length r = List.length cols ->
  zip_with (on_column c f) cols r = r.
Proof.
  induction cols as [| c0 cols IH]; intros N [| v r] L; simpl in *;
    try discriminate; [reflexivity|].
  unfold on_column at 1.
  assert (E : String.eqb c0 c = false) by (apply String.eqb_neq; intuition).
  rewrite E, IH; [reflexivity | tauto | lia].
Qed.

Lemma update_nth_on_column (c : string) (f : value -> value) (cols : list string) :
  NoDup cols -> forall i r,
  index_of c cols = Some i -> List.length r = List.length cols ->
  update_nth i f r = zip_with (on_column c f) cols r.
Proof.
  induction 1 as [| c0 cols N ND IH]; intros i [| v r] I L; simpl in *;
    try discriminate.
  unfold on_column at 1.
  destruct (String.eqb c c0) eqn:E.
  - apply String.eqb_eq in E. subst c0. injection I as <-.
    rewrite String.eqb_refl, on_column_absent by (assumption || lia).
    reflexivity.
  - rewrite String.eqb_sym, E.
    destruct (index_of c cols) as [i' |] eqn:I'; simpl in I; [| discriminate].
    injection I as <-. simpl. f_equal. apply IH; [reflexivity | lia].
Qed.

Lemma assign_step (c : string) (f : value -> value) (df : DataFrame) :
  well_formed df ->
  (if mem c (columns df) then assign_map c f df else df)
  = mkDataFrame (columns df) (map (zip_with (on_column c f) (columns df)) (rows df)).
Proof.
  intros [ND F]. rewrite Forall_forall in F.
  destruct (mem c (columns df)) eqn:M.
  - apply mem_In in M. destruct (index_of_In _ _ M) as (i & I).
    unfold assign_map. rewrite I. f_equal.
    apply map_ext_in. intros r Hr. now apply update_nth_on_column; auto.
  - apply mem_false in M. destruct df as [cols rs]. simpl in *. f_equal.
    rewrite <- (map_id rs) at 1. apply map_ext_in. intros r Hr.
    symmetry. now apply on_column_absent; auto.
Qed.

Lemma assign_map_step (c : string) (f : value -> value) (df : DataFrame) :
  well_formed df ->
  assign_map c f df
  = mkDataFrame (columns df) (map (zip_with (on_column c f) (columns df)) (rows df)).
Proof.
  intros W. rewrite <- (assign_step c f df W).
  destruct (mem c (columns df)) eqn:M; [reflexivity|].
  unfold assign_map. apply mem_false in M.
  destruct (index_of c (columns df)) as [i |] eqn:I; [| reflexivity].
  exfalso. apply M. clear - I. revert i I.
  induction (columns df) as [| c0 cols IH]; simpl; intros i I; [discriminate|].
  destruct (String.eqb c c0) eqn:E.
  - left. symmetry. now apply String.eqb_eq.
  - right. destruct (index_of c cols); [eapply IH; reflexivity | discriminate].
Qed.



End TableFacts.

(* ================================================================= *)
(** * The annotator *)

Section CleanFacts.
Import Py Pd Cleaner.
Local Open Scope string_scope.

Variable numeric_of_str : string -> option Qc.





End CleanFacts.

Section AnnotatorFacts.
Import Py Pd Cleaner.
Local Open Scope string_scope.

Lemma insert_ok (loc : nat) (label : string) (vals : list value) (df : DataFrame) :
  ~ In label (columns df) ->
  loc <= List.length (columns df) ->
  List.length vals = List.length (rows df) ->
  insert loc label vals df
  = Ok (mkDataFrame (insert_at loc label (columns df))
                    (zip_with (fun v r => insert_at loc v r) vals (rows df))).
Proof.
  intros N L E. unfold insert, len.
  rewrite (proj2 (mem_false _ _) N).
  rewrite (proj2 (Nat.leb_le _ _) L), (proj2 (Nat.eqb_eq _ _) E).
  reflexivity.
Qed.


End AnnotatorFacts.



(* ================================================================= *)
(** * Groups *)

Section GroupFacts.
Import Py Pd.
Context {A : Type} (by_key : A -> key).

Let complete (a : A) : bool := forallb notna (by_key a).
Let member (k : key) (a : A) : bool := key_eqb (by_key a) k.

Lemma groupby_keys (l : list A) :
  map fst (groupby by_key l)
  = sorted key_leb (dedup key_eqb (map by_key (filter complete l))).
Proof.
  unfold groupby. rewrite map_map. simpl. apply map_id.
Qed.

Lemma groupby_keys_NoDup (l : list A) : NoDup (map fst (groupby by_key l)).
Proof.
  rewrite groupby_keys. apply sorted_NoDup, dedup_NoDup, key_eqb_eq.
Qed.

Lemma groupby_key_In (l : list A) (k : key) :
  In k (map fst (groupby by_key l))
  <-> exists a, In a l /\ complete a = true /\ by_key a = k.
Proof.
  rewrite groupby_keys, sorted_In, (dedup_In _ key_eqb_eq), in_map_iff.
  split; intros (a & H1 & H2).
  - apply filter_In in H2. exists a. tauto.
  - exists a. rewrite filter_In. tauto.
Qed.

Lemma groupby_In (l : list A) (k : key) (g : list A) :
  In (k, g) (groupby by_key l)
  <-> In k (map fst (groupby by_key l))
      /\ g = filter (member k) (filter complete l).
Proof.
  rewrite groupby_keys. unfold groupby. rewrite in_map_iff. split.
  - intros (k' & E & H). injection E as -> <-. tauto.
  - intros [H ->]. now exists k.
Qed.

(** Rows with a given complete key are complete rows. *)
Lemma filter_member_complete (l : list A) (k : key) :
  forallb notna k = true ->
  filter (member k) (filter complete l) = filter (member k) l.
Proof.
  intros C. induction l as [| a l IH]; simpl; [reflexivity|].
  destruct (complete a) eqn:Ca; simpl.
  - now rewrite IH.
  - unfold member at 2. destruct (key_eqb (by_key a) k) eqn:E; [| exact IH].
    apply key_eqb_eq in E. unfold complete in Ca. congruence.
Qed.

Lemma groupby_key_complete (l : list A) (k : key) :
  In k (map fst (groupby by_key l)) -> forallb notna k = true.
Proof.
  intros H. apply groupby_key_In in H. destruct H as (a & _ & C & <-). exact C.
Qed.

Lemma groupby_group (l : list A) (k : key) (g : list A) :
  In (k, g) (groupby by_key l) -> g = filter (member k) l.
Proof.
  intros H. apply groupby_In in H. destruct H as [K ->].
  apply filter_member_complete. now apply groupby_key_complete with l.
Qed.

(** ** The groups split the rows *)

Lemma concat_filter_nil (ks : list key) :
  List.concat (map (fun k => filter (member k) []) ks) = [].
Proof. induction ks; simpl; auto. Qed.

Lemma filters_skip (a : A) (l : list A) (ks : list key) :
  ~ In (by_key a) ks ->
  map (fun k => filter (member k) (a :: l)) ks
  = map (fun k => filter (member k) l) ks.
Proof.
  intros N. apply map_ext_in. intros k H. simpl. unfold member at 1.
  destruct (key_eqb (by_key a) k) eqn:E; [| reflexivity].
  apply key_eqb_eq in E. congruence.
Qed.

Lemma filters_take (a : A) (l : list A) (ks : list key) :
  NoDup ks -> In (by_key a) ks ->
  Permutation (List.concat (map (fun k => filter (member k) (a :: l)) ks))
              (a :: List.concat (map (fun k => filter (member k) l) ks)).
Proof.
  induction 1 as [| k ks N ND IH]; intros H; [contradiction|].
  cbn [map List.concat]. destruct (key_eqb (by_key a) k) eqn:E.
  - apply key_eqb_eq in E. subst k.
    rewrite filters_skip by exact N.
    simpl. unfold member at 1. now rewrite key_eqb_refl.
  - assert (Hk : In (by_key a) ks).
    { destruct H as [H | H]; [| exact H].
      subst k. now rewrite key_eqb_refl in E. }
    simpl. unfold member at 1. rewrite E.
    rewrite (IH Hk). apply Permutation_sym, Permutation_middle.
Qed.

Lemma filters_split (l : list A) (ks : list key) :
  NoDup ks -> (forall a, In a l -> In (by_key a) ks) ->
  Permutation (List.concat (map (fun k => filter (member k) l) ks)) l.
Proof.
  intros ND. induction l as [| a l IH]; intros Cov.
  - now rewrite concat_filter_nil.
  - rewrite filters_take; [| exact ND | apply Cov; now left].
    constructor. apply IH. intros b Hb. apply Cov. now right.
Qed.

Lemma groupby_split (l : list A) :
  Permutation (List.concat (map snd (groupby by_key l))) (filter complete l).
Proof.
  unfold groupby. rewrite map_map. cbn [snd].
  apply filters_split.
  - apply sorted_NoDup, dedup_NoDup, key_eqb_eq.
  - intros a H. apply sorted_In, (dedup_In _ key_eqb_eq). now apply in_map.
Qed.

(** A row sits in the group of its own key and in no other. *)
Lemma groupby_row (l : list A) (k : key) (g : list A) (a : A) :
  In (k, g) (groupby by_key l) -> (In a g <-> In a l /\ by_key a = k).
Proof.
  intros H. rewrite (groupby_group _ _ _ H), filter_In.
  unfold member. now rewrite key_eqb_eq.
Qed.

End GroupFacts.

(* ================================================================= *)
(** * The partitioner *)

Lemma notna_true (v : Pd.value) : Pd.notna v = true <-> v <> Pd.NA.
Proof. destruct v; simpl; split; intros; congruence. Qed.

(** C7.  For a wide table whose location columns are present and hold no
    missing cell (every table the pivot returns is such), the sheets of the
    partitioner together hold the rows of the table, up to order, and every
    row lies in exactly one sheet.  Without location columns the one sheet
    "All" is the table. *)
Theorem partition_exhaustive
  (str_of_value : Pd.value -> string) (wide : Pd.DataFrame) (ro : Reshaper.Roles) :
  (forall c, In c (Reshaper.group_cols ro) -> In c (Pd.columns wide)) ->
  (forall r c, In r (Pd.rows wide) -> In c (Reshaper.group_cols ro) ->
               Pd.cell (Pd.columns wide) r c <> Pd.NA) ->
  exists parts,
    Reshaper.partitions str_of_value wide ro = Py.Ok parts /\
    Permutation (flat_map (fun p => Pd.rows (snd p)) parts) (Pd.rows wide) /\
    forall r, In r (Pd.rows wide) ->
      exists i p,
        nth_error parts i = Some p /\ In r (Pd.rows (snd p)) /\
        forall j q, nth_error parts j = Some q -> In r (Pd.rows (snd q)) -> j = i.
Proof.
  intros Cols Full. unfold Reshaper.partitions.
  destruct (Reshaper.group_cols ro) as [| c0 gc] eqn:G.
  - exists [("All"%string, wide)]. split; [reflexivity|]. split.
    + simpl. rewrite app_nil_r. reflexivity.
    + intros r Hr. exists 0, ("All"%string, wide). repeat split; auto.
      intros [| j] q Hq _; [reflexivity|].
      destruct j; discriminate.
  - set (gcs := c0 :: gc) in *.
    set (by_key := fun r => map (Pd.cell (Pd.columns wide) r) gcs).
    assert (M : forallb (fun c => Py.mem c (Pd.columns wide)) gcs = true).
    { apply forallb_forall. intros c H. now apply mem_In, Cols. }
    rewrite M.
    set (build := fun g : Pd.key * list (list Pd.value) =>
                    (Reshaper.sheet_name str_of_value (fst g),
                     Pd.mkDataFrame (Pd.columns wide) (snd g))).
    set (groups := Pd.groupby by_key (Pd.rows wide)).
    assert (C : forall r, In r (Pd.rows wide) -> forallb Pd.notna (by_key r) = true).
    { intros r Hr. apply forallb_forall. intros v Hv.
      apply in_map_iff in Hv. destruct Hv as (c & <- & Hc).
      apply notna_true. now apply Full. }
    exists (map build groups). split; [reflexivity|]. split.
    + rewrite flat_map_concat_map, map_map. cbn [build snd Pd.rows].
      fold (map (@snd Pd.key (list (list Pd.value))) groups).
      unfold groups. rewrite groupby_split.
      rewrite forallb_filter_id; [reflexivity|].
      apply forallb_forall. exact C.
    + intros r Hr.
      assert (K : In (by_key r) (map fst groups)).
      { apply groupby_key_In. exists r. auto. }
      destruct (In_nth_error _ _ K) as (i & Hi).
      rewrite nth_error_map in Hi.
      destruct (nth_error groups i) as [[k g] |] eqn:Ei; [| discriminate].
      simpl in Hi. injection Hi as ->.
      exists i, (build (by_key r, g)). split; [| split].
      * now rewrite nth_error_map, Ei.
      * cbn [build snd Pd.rows].
        apply (groupby_row by_key (Pd.rows wide) (by_key r) g r).
        -- apply nth_error_In with i. exact Ei.
        -- auto.
      * intros j q Hq Hin. rewrite nth_error_map in Hq.
        destruct (nth_error groups j) as [[k' g'] |] eqn:Ej; [| discriminate].
        injection Hq as <-. cbn [build snd Pd.rows] in Hin.
        apply (groupby_row by_key (Pd.rows wide) k' g' r) in Hin;
          [| apply nth_error_In with j; exact Ej].
        destruct Hin as [_ <-].
        pose proof (groupby_keys_NoDup by_key (Pd.rows wide)) as ND.
        fold groups in ND. rewrite NoDup_nth_error in ND.
        symmetry. apply ND.
        -- apply nth_error_Some. rewrite nth_error_map, Ei. discriminate.
        -- now rewrite !nth_error_map, Ei, Ej.
Qed.

Lemma partition_exhaustive_witness :
  exists parts,
    Reshaper.partitions Examples.str_of_text Examples.wide_two Examples.wide_two_roles
    = Py.Ok parts /\
    Permutation (flat_map (fun p => Pd.rows (snd p)) parts) (Pd.rows Examples.wide_two) /\
    forall r, In r (Pd.rows Examples.wide_two) ->
      exists i p,
        nth_error parts i = Some p /\ In r (Pd.rows (snd p)) /\
        forall j q, nth_error parts j = Some q -> In r (Pd.rows (snd q)) -> j = i.
Proof.
  apply partition_exhaustive.
  - intros c H. vm_compute in H. vm_compute. tauto.
  - intros r c Hr Hc. vm_compute in Hc.
    destruct Hr as [<- | [<- | [<- | []]]];
      destruct Hc as [<- | [<- | []]]; vm_compute; discriminate.
Defined.

(* ================================================================= *)
(** * The pivot *)

Section PivotFacts.
Import Py Pd.




Lemma forallb_snoc {A : Type} (f : A -> bool) (l : list A) (a : A) :
  forallb f (l ++ [a]) = forallb f l && f a.
Proof. rewrite forallb_app. simpl. now rewrite andb_true_r. Qed.




Lemma cell_map_labels (f : string -> value) (labels : list string) (p : string) :
  cell labels (map f labels) p = if mem p labels then f p else NA.
Proof.
  unfold cell. induction labels as [| c labels IH]; simpl; [reflexivity|].
  destruct (String.eqb p c) eqn:E; simpl.
  - apply String.eqb_eq in E. now subst.
  - destruct (index_of p labels) as [i |]; simpl in *; exact IH.
Qed.



(** ** The groups that survive *)

Variables (df : DataFrame) (index : list string) (cols values : string).

Let pk := pivot_key df index cols.
Let valf := fun r => cell (columns df) r values.
Let kept := pivot_kept df index cols values.

Lemma kept_In (gk : key) (v : value) :
  In (gk, v) kept
  <-> (exists r, In r (rows df) /\ pk r = gk)
      /\ forallb notna gk = true
      /\ v = mean (map valf (filter (fun r => key_eqb (pk r) gk) (rows df)))
      /\ notna v = true.
Proof.
  unfold kept, pivot_kept, pivot_agged. rewrite filter_In, in_map_iff. cbn [snd].
  split.
  - intros [([k g] & E & H) N]. cbn [fst snd] in E. injection E as -> <-.
    pose proof (groupby_group pk _ _ _ H) as G.
    assert (K : In gk (map fst (groupby pk (rows df)))).
    { change gk with (fst (gk, g)). now apply in_map. }
    pose proof (groupby_key_complete pk _ _ K) as C.
    apply groupby_key_In in K. destruct K as (r & Hr & _ & Er).
    split; [now exists r|]. split; [exact C|]. split; [| exact N].
    now rewrite G.
  - intros ((r & Hr & Er) & C & -> & N). split; [| exact N].
    exists (gk, filter (fun r => key_eqb (pk r) gk) (rows df)). split; [reflexivity|].
    apply groupby_In. split.
    + apply groupby_key_In. exists r. subst gk. auto.
    + symmetry. now apply filter_member_complete.
Qed.



(** ** The unstacked table *)

Hypothesis text_labels :
  forall r, In r (rows df) -> is_text (cell (columns df) r cols) = true.

Let n := List.length index.
Let idx := dedup key_eqb (map (fun g : key * value => removelast (fst g)) kept).
Let labels :=
  sorted String.leb
    (dedup String.eqb (map (fun g : key * value => label_of (last (fst g) NA)) kept)).
Let entry (k : key) (p : string) : value :=
  match lookup_key (k ++ [Str p]) kept with
  | Some v => v
  | None => NA
  end.
Let mk (k : key) : list value := k ++ map (entry k) labels.

Lemma kept_shape (gk : key) (v : value) :
  In (gk, v) kept ->
  exists k p, gk = k ++ [Str p] /\ List.length k = n /\ forallb notna k = true.
Proof.
  intros H. apply kept_In in H. destruct H as ((r & Hr & <-) & C & _).
  unfold pk, pivot_key in *. rewrite forallb_snoc, andb_true_iff in C.
  destruct C as [C1 C2]. specialize (text_labels r Hr).
  destruct (cell (columns df) r cols) as [| q | d | p]; try discriminate.
  exists (map (cell (columns df) r) index), p.
  split; [reflexivity|]. split; [apply length_map | exact C1].
Qed.

Lemma idx_In (k : key) : In k idx <-> exists p v, In (k ++ [Str p], v) kept.
Proof.
  unfold idx. rewrite (dedup_In _ key_eqb_eq), in_map_iff. split.
  - intros ([gk v] & <- & H). cbn [fst].
    destruct (kept_shape _ _ H) as (k & p & -> & _).
    rewrite removelast_last. now exists p, v.
  - intros (p & v & H). exists (k ++ [Str p], v). split; [| exact H].
    cbn [fst]. apply removelast_last.
Qed.


Lemma idx_length (k : key) : In k idx -> List.length k = n.
Proof.
  intros H. apply idx_In in H. destruct H as (p & v & H).
  destruct (kept_shape _ _ H) as (k' & p' & E & L & _).
  apply app_inj_tail in E. destruct E as [-> _]. exact L.
Qed.

Lemma idx_complete (k : key) : In k idx -> forallb notna k = true.
Proof.
  intros H. apply idx_In in H. destruct H as (p & v & H).
  destruct (kept_shape _ _ H) as (k' & p' & E & _ & C).
  apply app_inj_tail in E. destruct E as [-> _]. exact C.
Qed.

Lemma firstn_mk (k : key) : In k idx -> firstn n (mk k) = k.
Proof.
  intros H. unfold mk. rewrite <- (idx_length k H).
  rewrite firstn_app, Nat.sub_diag, firstn_all. simpl. apply app_nil_r.
Qed.

Lemma unstack_rows : rows (unstack index kept) = map mk idx.
Proof. reflexivity. Qed.


(** No two rows of the unstacked table have the same index key. *)
Lemma unstack_keys : map (firstn n) (rows (unstack index kept)) = idx.
Proof.
  rewrite unstack_rows, map_map. rewrite <- (map_id idx) at 2.
  apply map_ext_in. intros k H. now apply firstn_mk.
Qed.




End PivotFacts.

Section PrepareFacts.
Import Py Pd Reshaper.
Local Open Scope string_scope.

Lemma assign_map_columns (c : string) (f : value -> value) (df : DataFrame) :
  columns (assign_map c f df) = columns df.
Proof. unfold assign_map. now destruct (index_of c (columns df)). Qed.

Lemma nth_update_nth {A : Type} (f : A -> A) (d : A) (l : list A) :
  forall i j,
    nth j (update_nth i f l) d
    = if ((j =? i) && (j <? List.length l))%nat then f (nth j l d) else nth j l d.
Proof.
  induction l as [| x l IH]; intros i j.
  - cbn [update_nth List.length].
    replace (Nat.ltb j 0) with false by (symmetry; apply Nat.ltb_ge; lia).
    rewrite andb_false_r. now destruct i.
  - destruct i as [| i], j as [| j]; try reflexivity.
    cbn [update_nth nth]. rewrite IH. reflexivity.
Qed.

Lemma index_of_inj (a b : string) (cols : list string) (i : nat) :
  index_of a cols = Some i -> index_of b cols = Some i -> a = b.
Proof.
  revert i. induction cols as [| c cols IH]; simpl; intros i; [discriminate|].
  destruct (String.eqb_spec a c) as [-> | Na], (String.eqb_spec b c) as [-> | Nb];
    try reflexivity.
  - intros [= <-]. destruct (index_of b cols); discriminate.
  - destruct (index_of a cols); intros [= <-]; discriminate.
  - destruct (index_of a cols) as [ia |], (index_of b cols) as [ib |];
      simpl; try discriminate.
    intros [= <-] [= ->]. now apply IH with ia.
Qed.

(** An assignment to column [c] leaves the cells of the other columns. *)
Lemma cell_assign_other (c c' : string) (f : value -> value) (df : DataFrame)
      (r' : list value) :
  c' <> c -> In r' (rows (assign_map c f df)) ->
  exists r, In r (rows df) /\ cell (columns df) r' c' = cell (columns df) r c'.
Proof.
  intros N H. unfold assign_map in H.
  destruct (index_of c (columns df)) as [i |] eqn:I; [| now exists r'].
  cbn [rows] in H. apply in_map_iff in H. destruct H as (r & <- & Hr).
  exists r. split; [exact Hr|]. unfold cell.
  destruct (index_of c' (columns df)) as [j |] eqn:J; [| reflexivity].
  rewrite nth_update_nth.
  destruct (Nat.eqb_spec j i) as [-> | _]; [| reflexivity].
  exfalso. apply N. now apply index_of_inj with (columns df) i.
Qed.

(** The cells of column [c] itself are images of [f], or missing. *)
Lemma cell_assign_same (P : value -> Prop) (c : string) (f : value -> value)
      (df : DataFrame) (r' : list value) :
  In c (columns df) -> P NA -> (forall v, P (f v)) ->
  In r' (rows (assign_map c f df)) -> P (cell (columns df) r' c).
Proof.
  intros Hc P0 Pf H. unfold assign_map in H.
  destruct (index_of_In _ _ Hc) as (i & I). rewrite I in H.
  cbn [rows] in H. apply in_map_iff in H. destruct H as (r & <- & Hr).
  unfold cell. rewrite I, nth_update_nth, Nat.eqb_refl. simpl.
  destruct (Nat.ltb i (List.length r)) eqn:L; [apply Pf|].
  apply Nat.ltb_ge in L. now rewrite nth_overflow.
Qed.

Variable numeric_of_str : string -> option Qc.
Variable date_of_value : value -> option Z.

Lemma prepare_columns (df : DataFrame) (ro : Roles) :
  columns (prepare numeric_of_str date_of_value df ro) = columns df.
Proof. unfold prepare. now rewrite !assign_map_columns. Qed.

Lemma date_col_indexed (ro : Roles) :
  date_col ro <> "" -> In (date_col ro) (index_cols ro).
Proof.
  intros N. unfold index_cols, truthy. apply in_flat_map.
  exists (Some (date_col ro)). split; [simpl; tauto|].
  apply String.eqb_neq in N. rewrite N. now left.
Qed.

(** A ready table passes the checks of the pivot once it is prepared. *)
Lemma make_wide_ok (df : DataFrame) (ro : Roles) :
  ready df ro = true ->
  let long := prepare numeric_of_str date_of_value df ro in
  make_wide numeric_of_str date_of_value df ro
  = Ok (unstack (index_cols ro)
          (pivot_kept long (index_cols ro) POLLUTANT_NAME (value_col ro)))
  /\ forall r, In r (rows long) ->
       is_text (cell (columns long) r POLLUTANT_NAME) = true
       /\ is_numeric (cell (columns long) r (value_col ro)) = true.
Proof.
  intros R long. unfold ready, pivot_ready in R.
  rewrite !andb_true_iff, !negb_true_iff in R.
  destruct R as (D & ((M & O1) & O2) & T).
  assert (D' : In (date_col ro) (index_cols ro)).
  { apply date_col_indexed. now apply String.eqb_neq. }
  assert (Nv : ~ In (value_col ro) (POLLUTANT_NAME :: index_cols ro))
    by now apply mem_false.
  assert (Np : ~ In POLLUTANT_NAME (index_cols ro)) by now apply mem_false.
  assert (Hv : In (value_col ro) (columns df)).
  { rewrite forallb_forall in M. apply mem_In, M. now left. }
  assert (Cells : forall r, In r (rows long) ->
            is_text (cell (columns long) r POLLUTANT_NAME) = true
            /\ is_numeric (cell (columns long) r (value_col ro)) = true).
  { intros r Hr. unfold long in *. rewrite prepare_columns.
    unfold prepare in Hr. split.
    - assert (N1 : POLLUTANT_NAME <> value_col ro).
      { intros E. apply Nv. left. exact E. }
      assert (N2 : POLLUTANT_NAME <> date_col ro).
      { intros E. apply Np. now rewrite E. }
      destruct (cell_assign_other _ _ _ _ r N1 Hr) as (r1 & H1 & E1).
      rewrite assign_map_columns in E1. rewrite E1.
      destruct (cell_assign_other _ _ _ _ r1 N2 H1) as (r0 & H0 & E0).
      rewrite E0. rewrite forallb_forall in T. now apply T.
    - rewrite <- (assign_map_columns (date_col ro) (to_date date_of_value) df).
      apply (cell_assign_same (fun v => is_numeric v = true)
               (value_col ro)
               (fun v => round_value (to_numeric numeric_of_str v))).
      + now rewrite assign_map_columns.
      + reflexivity.
      + intros [| q | d | s]; simpl; try reflexivity.
        now destruct (numeric_of_str s).
      + exact Hr. }
  split; [| exact Cells].
  unfold make_wide, pivot_table. fold long.
  unfold long at 1. rewrite prepare_columns.
  rewrite M. cbn [negb].
  rewrite O1, O2. cbn [orb].
  assert (C3 : forallb (fun r => is_numeric (cell (columns long) r (value_col ro)))
                       (rows long) = true).
  { apply forallb_forall. intros r Hr. now apply Cells. }
  assert (C4 : forallb (fun r => is_text (cell (columns long) r POLLUTANT_NAME))
                       (rows long) = true).
  { apply forallb_forall. intros r Hr. now apply Cells. }
  rewrite C3, C4. reflexivity.
Qed.

End PrepareFacts.

Section WideFacts.
Import Py Pd Reshaper.

Lemma index_of_app_l (c : string) (l1 l2 : list string) (i : nat) :
  index_of c l1 = Some i -> index_of c (l1 ++ l2) = Some i /\ i < List.length l1.
Proof.
  revert i. induction l1 as [| c0 l1 IH]; simpl; intros i; [discriminate|].
  destruct (String.eqb c c0).
  - intros [= <-]. split; [reflexivity | lia].
  - destruct (index_of c l1) as [j |]; simpl; [| discriminate].
    intros [= <-]. destruct (IH j eq_refl) as [-> L]. split; [reflexivity | lia].
Qed.

Lemma forallb_nth {A : Type} (f : A -> bool) (l : list A) (i : nat) (d : A) :
  forallb f l = true -> i < List.length l -> f (nth i l d) = true.
Proof.
  intros F L. rewrite forallb_forall in F. apply F. now apply nth_In.
Qed.

(** The index cells of an unstacked row are all there. *)
Lemma unstack_index_cells (df : DataFrame) (index : list string) (cols values : string) :
  (forall r, In r (rows df) -> is_text (cell (columns df) r cols) = true) ->
  let wide := unstack index (pivot_kept df index cols values) in
  forall row c, In row (rows wide) -> In c index ->
    In c (columns wide) /\ cell (columns wide) row c <> NA.
Proof.
  intros T wide row c Hrow Hc.
  assert (K : In (firstn (List.length index) row)
                 (map (firstn (List.length index)) (rows wide))) by now apply in_map.
  unfold wide in K. rewrite (unstack_keys df index cols values T) in K.
  pose proof (idx_length df index cols values T _ K) as L.
  pose proof (idx_complete df index cols values T _ K) as C.
  split.
  - unfold wide, unstack. cbn [columns]. apply in_or_app. now left.
  - destruct (index_of_In _ _ Hc) as (i & I).
    unfold wide at 1, unstack. cbn [columns]. unfold cell.
    set (labels := sorted String.leb _).
    destruct (index_of_app_l c index labels i I) as [-> Li].
    rewrite <- (firstn_skipn (List.length index) row).
    rewrite app_nth1 by (rewrite L; exact Li).
    apply notna_true. apply forallb_nth; [exact C | rewrite L; exact Li].
Qed.

Lemma group_cols_indexed (ro : Roles) (c : string) :
  In c (group_cols ro) -> In c (index_cols ro).
Proof.
  unfold group_cols, index_cols, truthy. rewrite !in_flat_map.
  intros (x & Hx & H). exists x. split; [| exact H].
  simpl in *. tauto.
Qed.

(** Every table [make_wide] returns has its location columns, with no
    missing cell in them: what the partitioner relies on. *)
Lemma make_wide_location_cells
      (numeric_of_str : string -> option Qc) (date_of_value : value -> option Z)
      (df : DataFrame) (ro : Roles) :
  ready df ro = true ->
  exists wide,
    make_wide numeric_of_str date_of_value df ro = Ok wide /\
    forall row c, In row (rows wide) -> In c (group_cols ro) ->
      In c (columns wide) /\ cell (columns wide) row c <> NA.
Proof.
  intros R.
  destruct (make_wide_ok numeric_of_str date_of_value df ro R) as [E Cells].
  eexists. split; [exact E|].
  intros row c Hrow Hc. apply unstack_index_cells.
  - intros r Hr. now apply Cells.
  - exact Hrow.
  - now apply group_cols_indexed.
Qed.

End WideFacts.









(* ================================================================= *)
(** * Beyond the pivot: files, names and sheets *)

Section FileNameFacts.
Import Py Pd Cleaner.
Local Open Scope string_scope.

Lemma split_nonempty (sep : ascii) (s : string) : split sep s <> [].
Proof.
  destruct s as [| c s]; simpl; [discriminate|].
  destruct (Ascii.eqb c sep); [discriminate|].
  destruct (split sep s); discriminate.
Qed.

Lemma split_without_sep (sep : ascii) (s : string) :
  ~ In sep (list_ascii_of_string s) -> split sep s = [s].
Proof.
  induction s as [| c s IH]; simpl; intros N; [reflexivity|].
  destruct (Ascii.eqb_spec c sep) as [-> | _]; [tauto|].
  rewrite IH by tauto. reflexivity.
Qed.

(** Whatever precedes a separator does not reach the last piece. *)
Lemma split_last_after_sep (sep : ascii) (a b : string) :
  exists w ws,
    split sep (a ++ String sep b) = w :: ws /\ ws <> [] /\
    last ws EmptyString = last (split sep b) EmptyString.
Proof.
  induction a as [| c a (w & ws & E & N & L)]; simpl.
  - rewrite Ascii.eqb_refl. exists EmptyString, (split sep b).
    split; [reflexivity|]. split; [apply split_nonempty | reflexivity].
  - rewrite E. destruct (Ascii.eqb c sep).
    + exists EmptyString, (w :: ws). split; [reflexivity|].
      split; [discriminate|]. rewrite <- L. destruct ws; [contradiction | reflexivity].
    + exists (String c w), ws. auto.
Qed.

Lemma basename_after_slash (dir name : string) :
  ~ In "/"%char (list_ascii_of_string name) ->
  basename (dir ++ "/" ++ name) = name.
Proof.
  intros N. unfold basename.
  destruct (split_last_after_sep "/"%char dir name) as (w & ws & E & NE & L).
  change (dir ++ "/" ++ name) with (dir ++ String "/"%char name).
  rewrite E. destruct ws as [| x ws]; [contradiction|].
  change (last (w :: x :: ws) "") with (last (x :: ws) "").
  rewrite L, split_without_sep by exact N. reflexivity.
Qed.

Lemma lower_char_slash (c : ascii) :
  Ascii.eqb (lower_char c) "/"%char = Ascii.eqb c "/"%char.
Proof. destruct c as [[] [] [] [] [] [] [] []]; reflexivity. Qed.

Lemma upper_char_slash (c : ascii) :
  Ascii.eqb (upper_char c) "/"%char = Ascii.eqb c "/"%char.
Proof. destruct c as [[] [] [] [] [] [] [] []]; reflexivity. Qed.

Lemma lower_char_lower (c : ascii) : lower_char (lower_char c) = lower_char c.
Proof. destruct c as [[] [] [] [] [] [] [] []]; reflexivity. Qed.

Lemma lower_char_upper (c : ascii) : lower_char (upper_char c) = lower_char c.
Proof. destruct c as [[] [] [] [] [] [] [] []]; reflexivity. Qed.

Lemma lower_lower (s : string) : lower (lower s) = lower s.
Proof. induction s; simpl; now rewrite ?lower_char_lower, ?IHs. Qed.

Lemma lower_upper (s : string) : lower (upper s) = lower s.
Proof. induction s; simpl; now rewrite ?lower_char_upper, ?IHs. Qed.

Lemma split_lower (s : string) :
  split "/"%char (lower s) = map lower (split "/"%char s).
Proof.
  induction s as [| c s IH]; [reflexivity|].
  cbn [lower split]. rewrite lower_char_slash, IH.
  destruct (Ascii.eqb c "/"%char); [reflexivity|].
  destruct (split "/"%char s); reflexivity.
Qed.

Lemma split_upper (s : string) :
  split "/"%char (upper s) = map upper (split "/"%char s).
Proof.
  induction s as [| c s IH]; [reflexivity|].
  cbn [upper split]. rewrite upper_char_slash, IH.
  destruct (Ascii.eqb c "/"%char); [reflexivity|].
  destruct (split "/"%char s); reflexivity.
Qed.

Lemma last_map_string (f : string -> string) (l : list string) :
  l <> [] -> last (map f l) EmptyString = f (last l EmptyString).
Proof.
  induction l as [| x l IH]; [contradiction|]. intros _.
  destruct l as [| y l]; [reflexivity|].
  change (last (map f (x :: y :: l)) "") with (last (map f (y :: l)) "").
  change (last (x :: y :: l) "") with (last (y :: l) "").
  apply IH. discriminate.
Qed.

Lemma basename_lower (p : string) : basename (lower p) = lower (basename p).
Proof.
  unfold basename. rewrite split_lower. apply last_map_string, split_nonempty.
Qed.

Lemma basename_upper (p : string) : basename (upper p) = upper (basename p).
Proof.
  unfold basename. rewrite split_upper. apply last_map_string, split_nonempty.
Qed.

End FileNameFacts.

(** X1.  Only the file name decides the pollutant: what precedes the last
    slash of the path plays no part, and neither does the case of the
    letters. *)
Theorem pollutant_from_filename_name_only (dir name : string) :
  ~ In "/"%char (list_ascii_of_string name) ->
  Cleaner.pollutant_from_filename (dir ++ "/" ++ name)
  = Cleaner.pollutant_from_filename name /\
  Cleaner.pollutant_from_filename (Py.upper (dir ++ "/" ++ name))
  = Cleaner.pollutant_from_filename name /\
  Cleaner.pollutant_from_filename (Py.lower (dir ++ "/" ++ name))
  = Cleaner.pollutant_from_filename name.
Proof.
  intros N.
  assert (B : Py.basename name = name).
  { unfold Py.basename. now rewrite split_without_sep. }
  unfold Cleaner.pollutant_from_filename.
  rewrite basename_upper, basename_lower, lower_upper, lower_lower.
  now rewrite basename_after_slash, B.
Qed.

Lemma pollutant_from_filename_name_only_witness :
  Cleaner.pollutant_from_filename "/data/pm10_runs/daily_NO2_2024.csv"%string
  = Cleaner.pollutant_from_filename "daily_NO2_2024.csv"%string.
Proof.
  apply (pollutant_from_filename_name_only "/data/pm10_runs" "daily_NO2_2024.csv").
  simpl. intuition discriminate.
Defined.

(** X2.  The pollutant [main] hands to the annotator is always one of the
    four names of the prefix table, so the default of the prefix look-up is
    never reached; and when the file name names a pollutant the answer of
    the user is not consulted. *)
Theorem file_pollutant_known (path : string) (answer : option string) :
  In (Cleaner.file_pollutant path answer) ["PM2.5"; "PM10"; "NO2"; "Unknown"]%string /\
  Py.dict_get Cleaner.POLLUTANT_PREFIX (Cleaner.file_pollutant path answer) <> None /\
  (Cleaner.pollutant_from_filename path <> "Unknown"%string ->
   Cleaner.file_pollutant path answer = Cleaner.pollutant_from_filename path).
Proof.
  assert (A : In (Cleaner.ask_pollutant_for_file answer)
                 ["PM2.5"; "PM10"; "NO2"; "Unknown"]%string).
  { unfold Cleaner.ask_pollutant_for_file. destruct answer as [p |]; [| simpl; tauto].
    destruct (p =? "")%string; [simpl; tauto|].
    cbv zeta. repeat (match goal with
                      | |- context [if ?b then _ else _] => destruct b
                      end); simpl; tauto. }
  assert (F : In (Cleaner.file_pollutant path answer)
                 ["PM2.5"; "PM10"; "NO2"; "Unknown"]%string).
  { unfold Cleaner.file_pollutant, Cleaner.pollutant_from_filename. cbv zeta.
    repeat (match goal with
            | |- context [if Py.contains ?a ?b || Py.contains ?c ?d then _ else _] =>
                destruct (Py.contains a b || Py.contains c d)
            | |- context [if Py.contains ?a ?b then _ else _] =>
                destruct (Py.contains a b)
            end); simpl; tauto. }
  split; [exact F|]. split.
  - destruct F as [<- | [<- | [<- | [<- | []]]]]; discriminate.
  - intros N. unfold Cleaner.file_pollutant.
    destruct (String.eqb_spec (Cleaner.pollutant_from_filename path) "Unknown");
      [contradiction | reflexivity].
Qed.

Lemma file_pollutant_known_witness :
  Cleaner.file_pollutant "/data/hourly_pm25.csv"%string (Some "NO2"%string)
  = Cleaner.pollutant_from_filename "/data/hourly_pm25.csv"%string.
Proof.
  apply (file_pollutant_known "/data/hourly_pm25.csv" (Some "NO2"%string)).
  vm_compute. discriminate.
Defined.

(** X3.  A table that already has a 'Sample ID' or a 'Pollutant Name'
    column cannot be annotated: the insertion of the column raises
    [ValueError], whatever the pollutant. *)
Theorem clean_rejects_labelled_table
  (numeric_of_str : string -> option Qc) (df : Pd.DataFrame) (pollutant : string) :
  In "Sample ID"%string (Pd.columns df) \/ In "Pollutant Name"%string (Pd.columns df) ->
  Cleaner.clean_and_label_dataframe numeric_of_str df pollutant = Py.Raise Py.ValueError.
Proof.
  intros H. unfold Cleaner.clean_and_label_dataframe.
  set (df1 := Pd.drop _ df).
  assert (K : forall c, In c (Pd.columns df) -> ~ In c Cleaner.DROP_COLS ->
                        In c (Pd.columns df1)).
  { intros c Hc N. unfold df1, Pd.drop. cbn [Pd.columns].
    rewrite select_mask_map. apply filter_In. split; [exact Hc|].
    apply negb_true_iff, mem_false. rewrite filter_In. tauto. }
  destruct (Py.mem "Sample ID" (Pd.columns df1)) eqn:S.
  - unfold Pd.insert at 1. now rewrite S.
  - destruct H as [H | H].
    { apply mem_false in S. exfalso. apply S, K; [exact H|].
      simpl. intuition discriminate. }
    rewrite insert_ok.
    + cbn [Py.bind]. unfold Pd.insert. cbn [Pd.columns].
      assert (P : Py.mem "Pollutant Name"
                    (Pd.insert_at 0 "Sample ID"%string (Pd.columns df1)) = true).
      { apply mem_In. right. apply K; [exact H|]. simpl. intuition discriminate. }
      now rewrite P.
    + now apply mem_false.
    + lia.
    + unfold Cleaner.sample_ids, Pd.len. now rewrite length_map, length_seq.
Qed.

Lemma clean_rejects_labelled_table_witness :
  Cleaner.clean_and_label_dataframe Py.decimal_of_str Examples.duplicates "PM2.5"%string
  = Py.Raise Py.ValueError.
Proof.
  apply clean_rejects_labelled_table. right. simpl. tauto.
Defined.

Section MoreFilterFacts.
Import Py Pd Cleaner.
Local Open Scope string_scope.

Lemma round3_fixed (x : Qc) : round3 (round3 x) = round3 x.
Proof.
  unfold round3 at 1 3. apply Q2Qc_eq_iff.
  now rewrite (rint_comp _ _ (round3_grid x)), rint_inject_Z.
Qed.

Lemma round_value_fixed (v : value) : round_value (round_value v) = round_value v.
Proof. destruct v; simpl; try reflexivity. now rewrite round3_fixed. Qed.


Lemma select_mask_all {A : Type} (l : list A) :
  select_mask (map (fun _ => true) l) l = l.
Proof. induction l as [| x l IH]; simpl; [reflexivity | now rewrite IH]. Qed.



Lemma split_single (sep : ascii) (s b : string) :
  split sep s = [b] -> s = b /\ ~ In sep (list_ascii_of_string s).
Proof.
  revert b. induction s as [| c s IH]; simpl; intros b.
  - intros [= <-]. tauto.
  - destruct (Ascii.eqb_spec c sep) as [-> | Nc].
    + intros E. injection E as _ E. now apply split_nonempty in E.
    + destruct (split sep s) as [| w ws] eqn:S; [intros [= <-] |].
      * now apply split_nonempty in S.
      * intros E. injection E as <- ->.
        destruct (IH w eq_refl) as [-> N]. split; [reflexivity|].
        intros [H | H]; [congruence | contradiction].
Qed.

Lemma split_pair (sep : ascii) (s a b : string) :
  split sep s = [a; b]
  <-> s = a ++ String sep b
      /\ ~ In sep (list_ascii_of_string a) /\ ~ In sep (list_ascii_of_string b).
Proof.
  split.
  - revert a. induction s as [| c s IH]; simpl; intros a; [discriminate|].
    destruct (Ascii.eqb_spec c sep) as [-> | Nc].
    + intros E. injection E as <- E. destruct (split_single _ _ _ E) as [-> N].
      simpl. tauto.
    + destruct (split sep s) as [| w ws] eqn:S; [discriminate|].
      intros E. injection E as <- ->.
      destruct (IH w eq_refl) as (-> & Na & Nb). simpl.
      split; [reflexivity|]. split; [| exact Nb].
      intros [H | H]; [congruence | contradiction].
  - intros (-> & Na & Nb). induction a as [| c a IH]; simpl.
    + rewrite Ascii.eqb_refl. now rewrite split_without_sep.
    + simpl in Na. destruct (Ascii.eqb_spec c sep) as [-> | _]; [tauto|].
      rewrite IH by tauto. reflexivity.
Qed.

End MoreFilterFacts.





(** X6.  Whatever the table, the filter type and the keyword, a table
    that [filter_data] returns has the columns of the input and a selection
    of its rows in their order; the coordinates filter never raises, and a
    text filter raises only what the pattern match raises. *)
Theorem filter_data_selects_rows
  (float_of_str : string -> option Qc)
  (str_contains : string -> list Pd.value -> Py.result (list bool))
  (df : Pd.DataFrame) (keyword_type : option string) (keyword : string) :
  match fst (Cleaner.filter_data float_of_str str_contains df keyword_type keyword) with
  | Py.Ok out =>
      Pd.columns out = Pd.columns df /\
      exists mask, Pd.rows out = Pd.select_mask mask (Pd.rows df)
  | Py.Raise e =>
      Py.lower (Py.strip (match keyword_type with Some s => s | None => ""%string end))
      <> "coordinates"%string /\
      exists s, str_contains keyword s = Py.Raise e
  end.
Proof.
  assert (Same : Pd.columns df = Pd.columns df /\
                 exists mask, Pd.rows df = Pd.select_mask mask (Pd.rows df)).
  { split; [reflexivity|]. exists (map (fun _ => true) (Pd.rows df)).
    now rewrite select_mask_all. }
  unfold Cleaner.filter_data.
  set (kt := Py.lower (Py.strip _)).
  destruct (String.eqb_spec kt "coordinates") as [E | N].
  - destruct (Cleaner.coordinates_rows float_of_str df keyword) as [out |] eqn:R;
      cbn [fst]; [| exact Same].
    unfold Cleaner.coordinates_rows in R.
    destruct (Cleaner.parse_coordinates float_of_str keyword) as [[lat lon] |];
      cbn [Py.bind] in R; [| discriminate].
    destruct (Cleaner.round3_equals _ df "Latitude") as [m1 |];
      cbn [Py.bind] in R; [| discriminate].
    destruct (Cleaner.round3_equals _ df "Longitude") as [m2 |];
      cbn [Py.bind] in R; [| discriminate].
    injection R as <-. split; [reflexivity|]. now exists (Pd.zip_with andb m1 m2).
  - destruct (Py.dict_get Cleaner.FILTER_MAP kt) as [[col | cs] |]; cbn [fst];
      try exact Same.
    destruct (Py.mem col (Pd.columns df)) eqn:M; cbn [fst]; [| exact Same].
    unfold Pd.getitem. rewrite M. cbn [Py.bind].
    destruct (str_contains keyword _) as [mask | e] eqn:S; cbn [Py.bind].
    + split; [reflexivity|]. now exists mask.
    + split; [exact N|]. eexists. exact S.
Qed.

(** X7.  A coordinate keyword is accepted exactly when it is two parts
    around one single comma and both parts, stripped of surrounding white
    space, read as floats; a keyword with no comma or with two is
    malformed. *)
Theorem parse_coordinates_one_comma
  (float_of_str : string -> option Qc) (keyword : string) (lat lon : Qc) :
  Cleaner.parse_coordinates float_of_str keyword = Py.Ok (lat, lon)
  <-> exists a b : string,
        keyword = (a ++ "," ++ b)%string /\
        ~ In ","%char (list_ascii_of_string a) /\
        ~ In ","%char (list_ascii_of_string b) /\
        float_of_str (Py.strip a) = Some lat /\
        float_of_str (Py.strip b) = Some lon.
Proof.
  unfold Cleaner.parse_coordinates. split.
  - destruct (Py.split ","%char keyword) as [| a [| b [| c rest]]] eqn:S;
      cbn [map]; try discriminate.
    apply split_pair in S. destruct S as (-> & Na & Nb).
    destruct (float_of_str (Py.strip a)) as [x |] eqn:A; [| discriminate].
    destruct (float_of_str (Py.strip b)) as [y |] eqn:B; [| discriminate].
    intros [= <- <-]. now exists a, b.
  - intros (a & b & -> & Na & Nb & A & B).
    assert (S : Py.split ","%char (a ++ "," ++ b) = [a; b]).
    { apply split_pair. auto. }
    rewrite S. cbn [map]. now rewrite A, B.
Qed.

Section ExportFacts.
Import Py Pd Cleaner.
Local Open Scope string_scope.

Lemma dedup_constant (x : value) (l : list value) :
  l <> [] -> (forall v, In v l -> v = x) -> dedup value_eqb l = [x].
Proof.
  induction l as [| y l IH]; [contradiction|]. intros _ All.
  assert (y = x) by (apply All; now left). subst y.
  cbn [dedup]. f_equal.
  destruct l as [| z l]; [reflexivity|].
  rewrite IH; [| discriminate | intros v Hv; apply All; now right].
  simpl. now rewrite (proj2 (value_eqb_eq x x) eq_refl).
Qed.

Lemma filter_none {A : Type} (f : A -> bool) (l : list A) :
  (forall a, In a l -> f a = false) -> filter f l = [].
Proof.
  induction l as [| a l IH]; simpl; intros H; [reflexivity|].
  rewrite (H a) by now left. apply IH. intros b Hb. apply H. now right.
Qed.

Lemma map_flat_map {A B C : Type} (h : B -> C) (k : A -> list B) (l : list A) :
  map h (flat_map k l) = flat_map (fun a => map h (k a)) l.
Proof.
  induction l as [| a l IH]; simpl; [reflexivity|].
  now rewrite map_app, IH.
Qed.

Lemma length_flat_map_rows (k : DataFrame -> list (list value)) (frames : list DataFrame) :
  (forall f, List.length (k f) = len f) ->
  List.length (flat_map k frames) = fold_right Nat.add 0 (map len frames).
Proof.
  intros H. induction frames as [| f frames IH]; simpl; [reflexivity|].
  now rewrite length_app, H, IH.
Qed.

End ExportFacts.

(** X8.  The name of the exported file: without a 'Pollutant Name' column
    the export fails with [KeyError]; when the column holds no name at all
    (no rows, or missing cells only) the pollutant part is "Unknown"; when
    every row carries the same name the part is that name without dots and
    spaces, once. *)
Theorem export_cleaned_name (df : Pd.DataFrame) (frequency : string) :
  (~ In "Pollutant Name"%string (Pd.columns df) ->
   Cleaner.export_cleaned df frequency = Cleaner.ExportKeyError) /\
  (In "Pollutant Name"%string (Pd.columns df) ->
   (forall r, In r (Pd.rows df) ->
              Pd.cell (Pd.columns df) r "Pollutant Name" = Pd.NA) ->
   Cleaner.export_cleaned df frequency
   = Cleaner.Written (Py.lower frequency ++ "_Unknown_cleaned.csv")) /\
  (forall p : string,
     In "Pollutant Name"%string (Pd.columns df) ->
     Pd.rows df <> [] ->
     (forall r, In r (Pd.rows df) ->
                Pd.cell (Pd.columns df) r "Pollutant Name" = Pd.Str p) ->
     Cleaner.export_cleaned df frequency
     = Cleaner.Written (Py.lower frequency ++ "_" ++ Cleaner.name_token p
                        ++ "_cleaned.csv")).
Proof.
  unfold Cleaner.export_cleaned. split; [| split].
  - intros N. apply mem_false in N. now rewrite N.
  - intros H All. rewrite (proj2 (mem_In _ _) H). cbn [negb].
    rewrite filter_none; [reflexivity|].
    intros v Hv. apply in_map_iff in Hv. destruct Hv as (r & <- & Hr).
    now rewrite All.
  - intros p H NE All. rewrite (proj2 (mem_In _ _) H). cbn [negb].
    assert (F : filter Pd.notna
                  (map (fun r => Pd.cell (Pd.columns df) r "Pollutant Name") (Pd.rows df))
                = map (fun _ => Pd.Str p) (Pd.rows df)).
    { rewrite forallb_filter_id.
      - apply map_ext_in. intros r Hr. now apply All.
      - apply forallb_forall. intros v Hv. apply in_map_iff in Hv.
        destruct Hv as (r & <- & Hr). now rewrite All. }
    rewrite F, (dedup_constant (Pd.Str p)).
    + reflexivity.
    + destruct (Pd.rows df); [contradiction | discriminate].
    + intros v Hv. apply in_map_iff in Hv. now destruct Hv as (r & <- & _).
Qed.

Lemma export_cleaned_name_witness :
  Cleaner.export_cleaned Examples.sites "Daily"
  = Cleaner.ExportKeyError.
Proof.
  apply (proj1 (export_cleaned_name Examples.sites "Daily")).
  simpl. intuition discriminate.
Defined.

(** X9.  Concatenating frames keeps every cell: the combined table has
    each column of each frame once, as many rows as the frames together,
    and under each column the cells of the frames in frame order, missing
    where a frame has no such column.  Nothing is renumbered, so the
    'Sample ID' column is the Sample IDs of the batches one after the
    other. *)
Theorem concat_keeps_cells (first : Pd.DataFrame) (others : list Pd.DataFrame) :
  exists out,
    Pd.concat (first :: others) = Py.Ok out /\
    NoDup (Pd.columns out) /\
    (forall c, In c (Pd.columns out)
               <-> exists f, In f (first :: others) /\ In c (Pd.columns f)) /\
    Pd.len out = fold_right Nat.add 0 (map Pd.len (first :: others)) /\
    Forall (fun r => List.length r = List.length (Pd.columns out)) (Pd.rows out) /\
    forall c, In c (Pd.columns out) ->
      Pd.getitem out c
      = Py.Ok (flat_map (fun f => map (fun r => Pd.cell (Pd.columns f) r c) (Pd.rows f))
                        (first :: others)).
Proof.
  set (frames := first :: others).
  set (cols := Pd.dedup String.eqb (flat_map Pd.columns frames)).
  eexists. split; [reflexivity|]. fold frames. fold cols. cbn [Pd.columns Pd.rows].
  split; [apply dedup_NoDup, String.eqb_eq|].
  split.
  { intros c. unfold cols. rewrite (dedup_In _ String.eqb_eq), in_flat_map. reflexivity. }
  split.
  { unfold Pd.len at 1. cbn [Pd.rows]. apply length_flat_map_rows.
    intros f. apply length_map. }
  split.
  { apply Forall_forall. intros r Hr. apply in_flat_map in Hr.
    destruct Hr as (f & _ & Hr). apply in_map_iff in Hr.
    destruct Hr as (r0 & <- & _). apply length_map. }
  intros c Hc. unfold Pd.getitem. cbn [Pd.columns Pd.rows].
  rewrite (proj2 (mem_In _ _) Hc). f_equal.
  rewrite map_flat_map. apply flat_map_ext. intros f.
  rewrite map_map. apply map_ext. intros r.
  rewrite cell_map_labels. now rewrite (proj2 (mem_In _ _) Hc).
Qed.

(** X10.  The loop over the files accounts for every file, with a frame or
    with an error dialog, and the choice of the final table raises exactly
    when no file could be read and cleaned: [IndexError] from [frames[0]],
    [ValueError] from the concatenation. *)
Theorem final_df_needs_a_frame
  (numeric_of_str : string -> option Qc) (str_of_exn : Py.exn -> string)
  (files : list Cleaner.source) (combine : bool) :
  let run := Cleaner.clean_files numeric_of_str str_of_exn files in
  List.length (fst run) + List.length (snd run) = List.length files /\
  ((exists e, Cleaner.final_df combine (fst run) = Py.Raise e)
   <-> forall f, In f files ->
         exists e, Cleaner.clean_file numeric_of_str f = Py.Raise e) /\
  ((forall f, In f files -> exists e, Cleaner.clean_file numeric_of_str f = Py.Raise e) ->
   Cleaner.final_df combine (fst run)
   = Py.Raise (if combine then Py.ValueError else Py.IndexError)).
Proof.
  cbv zeta.
  assert (Count : List.length (fst (Cleaner.clean_files numeric_of_str str_of_exn files))
                  + List.length (snd (Cleaner.clean_files numeric_of_str str_of_exn files))
                  = List.length files).
  { induction files as [| f files IH]; [reflexivity|].
    cbn [Cleaner.clean_files].
    destruct (Cleaner.clean_files numeric_of_str str_of_exn files) as [frames shown].
    destruct (Cleaner.clean_file numeric_of_str f); cbn [fst snd List.length] in *; lia. }
  assert (Empty : fst (Cleaner.clean_files numeric_of_str str_of_exn files) = []
                  <-> forall f, In f files ->
                        exists e, Cleaner.clean_file numeric_of_str f = Py.Raise e).
  { clear Count. induction files as [| f files IH].
    - simpl. split; [intros _ f [] | intros _; reflexivity].
    - cbn [Cleaner.clean_files].
      destruct (Cleaner.clean_files numeric_of_str str_of_exn files) as [frames shown].
      cbn [fst] in IH.
      destruct (Cleaner.clean_file numeric_of_str f) as [d | e] eqn:E; cbn [fst].
      + split; [discriminate|]. intros H.
        destruct (H f (or_introl eq_refl)) as (e & He). congruence.
      + rewrite IH. split.
        * intros H g [<- | Hg]; [now exists e | now apply H].
        * intros H g Hg. apply H. now right. }
  assert (Raises : forall frames,
            (exists e, Cleaner.final_df combine frames = Py.Raise e) <-> frames = []).
  { intros [| d frames]; unfold Cleaner.final_df, Pd.concat.
    - split; [reflexivity|]. intros _. destruct combine; eexists; reflexivity.
    - split; [| discriminate]. intros (e & H). destruct combine; discriminate. }
  split; [exact Count|]. split.
  - now rewrite Raises, Empty.
  - intros H. apply Empty in H. rewrite H. now destruct combine.
Qed.

Lemma final_df_needs_a_frame_witness :
  Cleaner.final_df false
    (fst (Cleaner.clean_files Py.decimal_of_str (fun _ => "error"%string)
            [Cleaner.mkSource "daily_pm25.csv" (Py.Ok Examples.duplicates) None;
             Cleaner.mkSource "daily_no2.csv" (Py.Raise Py.ValueError) None]))
  = Py.Raise Py.IndexError.
Proof.
  apply (final_df_needs_a_frame Py.decimal_of_str (fun _ => "error"%string)
           [Cleaner.mkSource "daily_pm25.csv" (Py.Ok Examples.duplicates) None;
            Cleaner.mkSource "daily_no2.csv" (Py.Raise Py.ValueError) None] false).
  intros f [<- | [<- | []]]; eexists; vm_compute; reflexivity.
Defined.

Section RoleFacts.
Import Py Pd Reshaper.
Local Open Scope string_scope.

Lemma coalesce_cols_candidate (df : DataFrame) (candidates : list string) (c : string) :
  coalesce_cols df candidates = Some c -> In c candidates /\ In c (columns df).
Proof.
  induction candidates as [| x rest IH]; simpl; [discriminate|].
  destruct (mem x (columns df)) eqn:M.
  - intros [= <-]. split; [now left | now apply mem_In].
  - intros H. destruct (IH H). tauto.
Qed.

Lemma truthy_In (cs : list (option string)) (c : string) :
  In c (truthy cs) <-> In (Some c) cs /\ c <> "".
Proof.
  unfold truthy. rewrite in_flat_map. split.
  - intros ([s |] & H & Hc); [| contradiction].
    destruct (String.eqb_spec s ""); [contradiction|].
    destruct Hc as [<- | []]. tauto.
  - intros [H N]. exists (Some c). split; [exact H|].
    apply String.eqb_neq in N. rewrite N. now left.
Qed.

(** Names found under roles with disjoint candidates are distinct. *)
Lemma truthy_NoDup (roles : list (option string * list string)) :
  (forall o cs c, In (o, cs) roles -> o = Some c -> In c cs) ->
  ForallOrdPairs (fun p q => forall x, In x (snd p) -> ~ In x (snd q)) roles ->
  NoDup (truthy (map fst roles)).
Proof.
  intros Sound Apart. induction Apart as [| [o cs] roles First Rest IH].
  - constructor.
  - assert (IH' : NoDup (truthy (map fst roles))).
    { apply IH. intros o' cs' c H. apply Sound. now right. }
    assert (Cut : truthy (map fst ((o, cs) :: roles))
                  = (truthy [o] ++ truthy (map fst roles))%list).
    { unfold truthy. simpl. now rewrite app_nil_r. }
    rewrite Cut.
    apply NoDup_app; [| exact IH' |].
    + unfold truthy. simpl. destruct o as [s |]; [| constructor].
      destruct (s =? ""); repeat constructor; simpl; tauto.
    + intros x Hx Hy. apply truthy_In in Hx. destruct Hx as [[Hx | []] _].
      apply truthy_In in Hy. destruct Hy as [Hy _].
      apply in_map_iff in Hy. destruct Hy as ([o' cs'] & E & Hy). simpl in E. subst o'.
      rewrite Forall_forall in First.
      apply (First (Some x, cs') Hy x).
      * simpl. apply (Sound o cs x); [now left | now symmetry].
      * simpl. apply (Sound (Some x) cs' x); [now right | reflexivity].
Qed.

End RoleFacts.

(** X11.  [coalesce_cols] returns the first candidate that is a column
    of the table, and nothing exactly when no candidate is a column. *)
Theorem coalesce_cols_first (df : Pd.DataFrame) (candidates : list string) :
  match Reshaper.coalesce_cols df candidates with
  | Some c =>
      In c (Pd.columns df) /\
      exists before after,
        candidates = (before ++ c :: after)%list /\
        forall x, In x before -> ~ In x (Pd.columns df)
  | None => forall x, In x candidates -> ~ In x (Pd.columns df)
  end.
Proof.
  induction candidates as [| x rest IH]; simpl; [tauto|].
  destruct (Py.mem x (Pd.columns df)) eqn:M.
  - split; [now apply mem_In|]. exists [], rest. split; [reflexivity | intros ? []].
  - apply mem_false in M.
    destruct (Reshaper.coalesce_cols df rest) as [c |].
    + destruct IH as (Hc & before & after & -> & B). split; [exact Hc|].
      exists (x :: before), after. split; [reflexivity|].
      intros y [<- | Hy]; [exact M | now apply B].
    + intros y [<- | Hy]; [exact M | now apply IH].
Qed.

(** X12.  The location columns that [main] detects are columns of the
    table and pairwise distinct, and they are index columns of the pivot:
    the pivot is never asked for a location column that is not there, nor
    for the same one twice. *)
Theorem detected_location_columns (df : Pd.DataFrame) (date_col value_col : string) :
  let ro := Reshaper.detect_roles df date_col value_col in
  NoDup (Reshaper.group_cols ro) /\
  forall c, In c (Reshaper.group_cols ro) ->
            In c (Pd.columns df) /\ In c (Reshaper.index_cols ro).
Proof.
  cbv zeta. split.
  - unfold Reshaper.group_cols, Reshaper.detect_roles.
    cbn [Reshaper.state_c Reshaper.county_c Reshaper.city_c Reshaper.site_num
         Reshaper.lat_col Reshaper.lon_col].
    set (c1 := ["State Name"; "State"]%string).
    set (c2 := ["County Name"; "County"]%string).
    set (c3 := ["City Name"; "City"]%string).
    set (c4 := ["Site Num"; "Site Number"]%string).
    set (c5 := ["Latitude"; "Site Latitude"; "Lat"]%string).
    set (c6 := ["Longitude"; "Site Longitude"; "Lon"; "Long"]%string).
    apply (truthy_NoDup
             [(Reshaper.coalesce_cols df c1, c1); (Reshaper.coalesce_cols df c2, c2);
              (Reshaper.coalesce_cols df c3, c3); (Reshaper.coalesce_cols df c4, c4);
              (Reshaper.coalesce_cols df c5, c5); (Reshaper.coalesce_cols df c6, c6)]).
    + intros o cs c H E. subst o.
      repeat (destruct H as [H | H];
              [pose proof (f_equal fst H) as H1; pose proof (f_equal snd H) as H2;
               cbn [fst snd] in H1, H2; subst cs;
               exact (proj1 (coalesce_cols_candidate df _ c H1)) |]).
      contradiction.
    + repeat (constructor; [repeat constructor |]);
        try (intros x Hx Hy; unfold c1, c2, c3, c4, c5, c6 in *; simpl in *;
             intuition (subst; discriminate)).
      constructor.
  - intros c H. split; [| now apply group_cols_indexed].
    unfold Reshaper.group_cols in H. apply truthy_In in H. destruct H as [H _].
    unfold Reshaper.detect_roles in H.
    cbn [Reshaper.state_c Reshaper.county_c Reshaper.city_c Reshaper.site_num
         Reshaper.lat_col Reshaper.lon_col] in H.
    repeat (destruct H as [H | H];
            [now apply coalesce_cols_candidate in H |]).
    contradiction.
Qed.

Section SheetFacts.
Import Py Pd Reshaper.
Local Open Scope string_scope.





End SheetFacts.





Section ColumnFacts.
Import Py Pd Reshaper.
Local Open Scope string_scope.


End ColumnFacts.



Section OrderFacts.
Import Py Pd Reshaper.
Local Open Scope string_scope.

(** The loop only assigns to the names it is given. *)
Lemma label_loop_keys (use_abc : bool) (ps : list string) :
  forall (i : nat) (labels d : dict string),
    label_loop use_abc i ps labels = Ok d ->
    forall c, ~ In c ps -> dict_get d c = dict_get labels c.
Proof.
  induction ps as [| p ps IH]; intros i labels d H c N; simpl in H.
  - now injection H as <-.
  - assert (Np : c <> p) by (intros ->; apply N; now left).
    assert (Nps : ~ In c ps) by (intros F; apply N; now right).
    apply String.eqb_neq in Np.
    destruct use_abc.
    + destruct (nth_error abc i) as [letter |]; [| discriminate].
      rewrite (IH _ _ _ H c Nps), dict_get_set. now rewrite Np.
    + rewrite (IH _ _ _ H c Nps), dict_get_set. now rewrite Np.
Qed.

Lemma index_cols_split (ro : Roles) :
  date_col ro <> "" -> index_cols ro = (group_cols ro ++ [date_col ro])%list.
Proof.
  intros N. apply String.eqb_neq in N.
  unfold index_cols, group_cols, truthy.
  change [state_c ro; county_c ro; city_c ro; site_num ro; lat_col ro; lon_col ro;
          Some (date_col ro)]
    with ([state_c ro; county_c ro; city_c ro; site_num ro; lat_col ro; lon_col ro]
          ++ [Some (date_col ro)])%list.
  rewrite flat_map_app. f_equal. simpl. now rewrite N.
Qed.

Lemma index_of_map (f : string -> string) (l : list string) (c : string) :
  NoDup (map f l) -> In c l -> index_of (f c) (map f l) = index_of c l.
Proof.
  induction l as [| x l IH]; intros ND H; [contradiction|].
  cbn [map] in *. inversion ND as [| ? ? Nx ND']; subst. cbn [index_of].
  destruct (String.eqb_spec c x) as [-> | Ncx].
  - now rewrite String.eqb_refl.
  - destruct H as [-> | H]; [congruence|].
    destruct (String.eqb_spec (f c) (f x)) as [E | _].
    + exfalso. apply Nx. rewrite <- E. now apply in_map.
    + now rewrite IH.
Qed.

Lemma filter_all {A : Type} (f : A -> bool) (l : list A) :
  (forall a, In a l -> f a = true) -> filter f l = l.
Proof.
  intros H. apply forallb_filter_id, forallb_forall. exact H.
Qed.

Lemma NoDup_app_apart {A : Type} (l1 l2 : list A) (a : A) :
  NoDup (l1 ++ l2) -> In a l1 -> ~ In a l2.
Proof.
  induction l1 as [| x l1 IH]; intros ND H; [contradiction|].
  cbn [app] in ND. inversion ND as [| ? ? Nx ND']; subst.
  destruct H as [-> | H].
  - intros F. apply Nx. apply in_or_app. now right.
  - now apply IH.
Qed.

End OrderFacts.

(** X16.  The final table of a pivot result has the date first, then the
    pollutant columns under their labels, then the location columns; every
    column keeps its cells.  This needs a date column with a name, labels
    for the pollutants (at most eight under the Sequential scheme) and no
    two equal labels after the renaming. *)
Theorem final_column_order
  (wide : Pd.DataFrame) (ro : Reshaper.Roles) (use_abc : bool)
  (pollutants : list string) (label_map : Py.dict string) :
  Pd.columns wide = (Reshaper.index_cols ro ++ pollutants)%list ->
  Reshaper.date_col ro <> ""%string ->
  Reshaper.make_pollutant_labels pollutants use_abc = Py.Ok label_map ->
  NoDup (Pd.columns (Pd.rename label_map wide)) ->
  Reshaper.label_and_order wide ro use_abc
  = Py.Ok (Pd.mkDataFrame
             (Reshaper.date_col ro
              :: map (fun p => Py.dict_get_default label_map p p) pollutants
              ++ Reshaper.group_cols ro)%list
             (map (fun r => map (Pd.cell (Pd.columns wide) r)
                              (Reshaper.date_col ro :: pollutants
                               ++ Reshaper.group_cols ro)%list)
                  (Pd.rows wide))).
Proof.
  intros Shape Named Labels NDr.
  set (f := fun c => Py.dict_get_default label_map c c).
  set (idx := Reshaper.index_cols ro) in *.
  set (g := Reshaper.group_cols ro).
  set (d := Reshaper.date_col ro) in *.
  assert (Split : idx = (g ++ [d])%list) by now apply index_cols_split.
  cbn [Pd.rename Pd.columns] in NDr. fold f in NDr.
  assert (ND : NoDup (Pd.columns wide)) by now apply NoDup_map_inv in NDr.
  rewrite Shape in ND, NDr.
  assert (Apart : forall c, In c idx -> ~ In c pollutants)
    by (intros c; now apply NoDup_app_apart).
  assert (Pols : filter (fun c => negb (Py.mem c idx)) (Pd.columns wide) = pollutants).
  { rewrite Shape, filter_app, filter_none, filter_all; [reflexivity | |].
    - intros c Hc. apply negb_true_iff, mem_false. intros F. now apply (Apart c).
    - intros c Hc. apply negb_false_iff. now apply mem_In. }
  assert (Fix : forall c, In c idx -> f c = c).
  { intros c Hc. unfold f, Py.dict_get_default.
    unfold Reshaper.make_pollutant_labels in Labels.
    rewrite (label_loop_keys _ _ _ _ _ Labels c); [reflexivity|].
    rewrite sorted_In. now apply Apart. }
  assert (Fidx : map f idx = idx).
  { rewrite <- (map_id idx) at 2. apply map_ext_in. exact Fix. }
  assert (Cols' : map f (Pd.columns wide) = (idx ++ map f pollutants)%list)
    by now rewrite Shape, map_app, Fidx.
  rewrite map_app, Fidx in NDr.
  assert (Hd : In d idx) by (rewrite Split; apply in_or_app; right; now left).
  assert (Hg : forall c, In c g -> In c idx)
    by (intros c Hc; rewrite Split; apply in_or_app; now left).
  assert (NDi : NoDup idx) by now apply NoDup_app_remove_r in ND.
  assert (Ngd : ~ In d g).
  { rewrite Split in NDi. apply NoDup_remove_2 in NDi. now rewrite app_nil_r in NDi. }
  unfold Reshaper.label_and_order. fold idx d. rewrite Pols, Labels.
  cbn [Py.bind]. cbn [Pd.rename Pd.columns]. fold f. rewrite Cols'.
  set (front := d :: map f pollutants).
  assert (Front : filter (fun c => Py.mem c (idx ++ map f pollutants)%list) front = front).
  { apply filter_all. intros c Hc. apply mem_In, in_or_app.
    destruct Hc as [<- | Hc]; [now left | now right]. }
  assert (Rest : filter (fun c => negb (Py.mem c front)) (idx ++ map f pollutants)%list = g).
  { rewrite Split, <- app_assoc, !filter_app.
    rewrite (filter_all _ g), !filter_none; [now rewrite app_nil_r | | |].
    - intros c Hc. apply negb_false_iff, mem_In. now right.
    - intros c [<- | []]. apply negb_false_iff, mem_In. now left.
    - intros c Hc. apply negb_true_iff, mem_false. intros [<- | F]; [contradiction|].
      apply (NoDup_app_apart idx (map f pollutants) c NDr); auto. }
  rewrite Front, Rest. unfold Pd.select, Pd.rename. cbn [Pd.columns Pd.rows].
  fold f. rewrite Cols'.
  assert (Present : forallb (fun c => Py.mem c (idx ++ map f pollutants)%list)
                            (front ++ g)%list = true).
  { apply forallb_forall. intros c Hc. apply mem_In, in_or_app.
    apply in_app_or in Hc. destruct Hc as [[<- | Hc] | Hc]; auto. }
  rewrite Present. f_equal. unfold front. f_equal.
  apply map_ext. intros r.
  assert (Moved : forall c, In c (Pd.columns wide) ->
            Pd.cell (idx ++ map f pollutants)%list r (f c)
            = Pd.cell (Pd.columns wide) r c).
  { intros c Hc. unfold Pd.cell. rewrite <- Cols', index_of_map; auto.
    now rewrite Cols'. }
  assert (Same : forall c, In c idx ->
            Pd.cell (idx ++ map f pollutants)%list r c = Pd.cell (Pd.columns wide) r c).
  { intros c Hc. rewrite <- (Fix c Hc) at 1. apply Moved.
    rewrite Shape. apply in_or_app. now left. }
  cbn [map app]. rewrite !map_app, map_map. f_equal; [now apply Same|]. f_equal.
  - apply map_ext_in. intros p Hp. apply Moved. rewrite Shape. apply in_or_app. now right.
  - apply map_ext_in. intros c Hc. apply Same. now apply Hg.
Qed.

Lemma final_column_order_witness :
  Reshaper.label_and_order
    (Pd.mkDataFrame
       ["State Name"; "City Name"; "Date"; "NO2"; "PM2.5"]%string
       [[Pd.Str "Maryland"; Pd.Str "Baltimore"; Pd.Day 739261;
         Examples.dec 152 10; Examples.dec 11 1]])
    Examples.duplicates_roles true
  = Py.Ok (Pd.mkDataFrame
             ["Date"; "Pollutant A (NO2)"; "Pollutant B (PM2.5)";
              "State Name"; "City Name"]%string
             [[Pd.Day 739261; Examples.dec 152 10; Examples.dec 11 1;
               Pd.Str "Maryland"; Pd.Str "Baltimore"]]).
Proof.
  apply (final_column_order
           (Pd.mkDataFrame
              ["State Name"; "City Name"; "Date"; "NO2"; "PM2.5"]%string
              [[Pd.Str "Maryland"; Pd.Str "Baltimore"; Pd.Day 739261;
                Examples.dec 152 10; Examples.dec 11 1]])
           Examples.duplicates_roles true ["NO2"; "PM2.5"]%string
           [("NO2", "Pollutant A (NO2)"); ("PM2.5", "Pollutant B (PM2.5)")]%string).
  - reflexivity.
  - vm_compute. discriminate.
  - reflexivity.
  - vm_compute. repeat constructor; simpl; intuition discriminate.
Defined.

Section MainFacts.
Import Py Pd Reshaper.
Local Open Scope string_scope.








End MainFacts.


Section OrderOfRows.
Import Py Pd Reshaper.
Local Open Scope string_scope.

















End OrderOfRows.



Section SampleIdFacts.
Import Py Pd Cleaner.
Local Open Scope string_scope.

(** Reading the digits back gives the number, leading zeros or not. *)
Lemma str_of_nat_read (i : nat) :
  option_map Nat.of_uint (NilEmpty.uint_of_string (str_of_nat i)) = Some i.
Proof.
  unfold str_of_nat.
  assert (R : forall d, option_map Nat.of_uint
                          (NilEmpty.uint_of_string (NilZero.string_of_uint d))
                        = Some (Nat.of_uint d)).
  { intros d. destruct d; try reflexivity;
      unfold NilZero.string_of_uint; now rewrite NilEmpty.usu. }
  rewrite R. f_equal. apply DecimalNat.Unsigned.of_to.
Qed.

Lemma zeros_read (k : nat) (s : string) :
  option_map Nat.of_uint (NilEmpty.uint_of_string (zeros k ++ s))
  = option_map Nat.of_uint (NilEmpty.uint_of_string s).
Proof.
  induction k as [| k IH]; [reflexivity|].
  cbn [zeros append NilEmpty.uint_of_string]. rewrite <- IH.
  now destruct (NilEmpty.uint_of_string (zeros k ++ s)).
Qed.

Lemma format_04d_read (i : nat) :
  option_map Nat.of_uint (NilEmpty.uint_of_string (format_04d i)) = Some i.
Proof. unfold format_04d. cbv zeta. rewrite zeros_read. apply str_of_nat_read. Qed.

Lemma append_cancel (p s t : string) : p ++ s = p ++ t -> s = t.
Proof.
  induction p as [| c p IH]; simpl; [auto|]. intros [= H]. now apply IH.
Qed.

Lemma zeros_pad (k : nat) (s : string) :
  String.length (zeros k ++ s) = k + String.length s.
Proof. induction k; simpl; auto. Qed.

End SampleIdFacts.

(** X19.  The Sample IDs of one file are as many as its rows and pairwise
    distinct, also past row 9999, where the number takes more than four
    digits; the number can be read back from an ID, and its part after the
    dash has at least four characters. *)
Theorem sample_ids_distinct (prefix : string) (n : nat) :
  List.length (Cleaner.sample_ids prefix n) = n /\
  NoDup (Cleaner.sample_ids prefix n) /\
  (forall i j, (prefix ++ "-" ++ Py.format_04d i)%string
               = (prefix ++ "-" ++ Py.format_04d j)%string -> i = j) /\
  (forall i, 4 <= String.length (Py.format_04d i)).
Proof.
  assert (Inj : forall i j, (prefix ++ "-" ++ Py.format_04d i)%string
                            = (prefix ++ "-" ++ Py.format_04d j)%string -> i = j).
  { intros i j H. apply append_cancel in H. injection H as H.
    pose proof (format_04d_read i) as Ri. rewrite H, format_04d_read in Ri.
    now injection Ri. }
  unfold Cleaner.sample_ids. split; [| split; [| split]].
  - now rewrite length_map, length_seq.
  - apply Finite.Injective_map_NoDup; [| apply seq_NoDup].
    intros i j [= H]. now apply Inj.
  - exact Inj.
  - intros i. unfold Py.format_04d. cbv zeta.
    rewrite zeros_pad. lia.
Qed.

Section MeanFacts.
Import Py Pd Reshaper.
Local Open Scope string_scope.





End MeanFacts.



Section WorkbookFacts.
Import Py Pd Reshaper.
Local Open Scope string_scope.


End WorkbookFacts.


